(** * go-strava: the request / authorization pipeline

    A shallow embedding of [config.go] (the client, [Request],
    [AuthorizationAccessToken], [AuthorizationURL]) and of the activity
    file ([Activity], [Activities], [ActivitiesRequest.Queries]).

    Go values are modelled as follows.
    - [string] is a byte string (Rocq's [string], one [ascii] per byte).
    - [uint64] is [N] and [int64] is [Z]; the code does no arithmetic on
      them, so no wrap-around is ever exercised.
    - [float64] is carried as its IEEE-754 bit pattern; the code only
      moves such values around.
    - [types.Map] ([map[string]interface{}]) is [option (gmap string value)]
      where [None] is the nil map.
    - [http.Header] and [url.Values] ([map[string][]string]) are
      [gmap string (list string)].
    - a method with receiver [s *strava] is a computation in the monad [M],
      which threads the client, the log of requests handed to the
      transport and the log of closed response bodies, and which may panic.
    What lies outside the repository (the network, [url.Parse],
    [convert.String], [json.Unmarshal], [types.Date]) is a parameter,
    bundled in the classes [DateAPI] and [Platform]. *)

From Stdlib Require Import ZArith NArith Ascii String List Bool DecimalString
  DecimalN.
From stdpp Require Import base option gmap strings list fin_maps sorting.

Open Scope string_scope.
Open Scope list_scope.

(** ** Errors and outcomes *)

(** A Go [error] value.  [AuthorizationError] is the package-level sentinel
    [errors.New("authorization error")]; [Errorf] is an error built by
    [fmt.Errorf]; [LibError] stands for an error produced outside the
    repository (net/http, net/url, encoding/json), tagged by its origin. *)
Inductive error : Type :=
| AuthorizationError
| Errorf (msg : string)
| LibError (origin msg : string).

#[global] Instance error_eq_dec : EqDecision error.
Proof. solve_decision. Defined.

Definition error_Error (e : error) : string :=
  match e with
  | AuthorizationError => "authorization error"
  | Errorf msg => msg
  | LibError _ msg => msg
  end.

(** ** Values stored in a [types.Map] *)

Inductive value : Type :=
| VString (s : string)
| VInt64 (z : Z)
| VUint64 (n : N).

#[global] Instance value_eq_dec : EqDecision value.
Proof. solve_decision. Defined.

(** [m.Set(k, v)] on a non-nil [types.Map]. *)
Definition Map_Set (k : string) (v : value) (m : gmap string value)
  : gmap string value := <[k := v]> m.

(** ** Config, RequestParams, client *)

Record Config : Type := {
  Host : string;
  ClientID : string;
  ClientSecret : string;
  RedirectURI : string;
  Timeout : N;          (* uint16 *)
  Scope : string
}.

Record RequestParams : Type := {
  Queries : option (gmap string value);
  Values : option (gmap string value);
  WithBearer : bool;
  WithFormURLEncoded : bool
}.

(** The zero value [RequestParams{}]. *)
Definition RequestParams_zero : RequestParams :=
  {| Queries := None; Values := None;
     WithBearer := false; WithFormURLEncoded := false |}.

(** [http.Client]; only the field the repository sets. *)
Record http_Client : Type := { Client_Timeout : Z (* nanoseconds *) }.

Record strava : Type := {
  Client : http_Client;
  cfg : Config;
  accessToken : string;
  userID : N
}.

Definition time_Second : Z := 1000000000.

Definition New (c : Config) : strava :=
  {| Client := {| Client_Timeout := Z.of_N (Timeout c) * time_Second |};
     cfg := c; accessToken := ""; userID := 0%N |}.

(** ** net/http and net/url data *)

Record url_URL : Type := {
  URL_Scheme : string;
  URL_Opaque : string;
  URL_User : option string;
  URL_Host : string;
  URL_Path : string;
  URL_RawQuery : string;
  URL_Fragment : string
}.

Definition URL_set_RawQuery (q : string) (u : url_URL) : url_URL :=
  {| URL_Scheme := URL_Scheme u; URL_Opaque := URL_Opaque u;
     URL_User := URL_User u; URL_Host := URL_Host u; URL_Path := URL_Path u;
     URL_RawQuery := q; URL_Fragment := URL_Fragment u |}.

Definition URL_set_Host (h : string) (u : url_URL) : url_URL :=
  {| URL_Scheme := URL_Scheme u; URL_Opaque := URL_Opaque u;
     URL_User := URL_User u; URL_Host := h; URL_Path := URL_Path u;
     URL_RawQuery := URL_RawQuery u; URL_Fragment := URL_Fragment u |}.

(** [http.Request].  [Req_Body = None] is the nil body. *)
Record http_Request : Type := {
  Req_Method : string;
  Req_URL : url_URL;
  Req_Proto : string;
  Req_Header : gmap string (list string);
  Req_Body : option string;
  Req_Host : string
}.

(** [http.Response].  The client guarantees a non-nil body on every
    response it returns, so [Resp_Body] is the byte string [ioutil.ReadAll]
    yields from it. *)
Record http_Response : Type := {
  StatusCode : Z;
  Resp_Body : string
}.

Definition MethodGet : string := "GET".
Definition MethodPost : string := "POST".
Definition StatusOK : Z := 200.
Definition StatusUnauthorized : Z := 401.

Definition GrantAuthorizationCode : string := "authorization_code".
Definition GrantRefreshToken : string := "refresh_token".

(** [h.Set(key, value)].  The three keys the repository uses
    ([Authorization], [Content-Type], [Accept]) are already in canonical
    MIME form, so canonicalisation leaves them as they are. *)
Definition Header_Set (key val : string) (h : gmap string (list string))
  : gmap string (list string) := <[key := [val]]> h.

(** [h.Get(key)]: the first value, or the empty string. *)
Definition Header_Get (key : string) (h : gmap string (list string)) : string :=
  match h !! key with
  | Some (v :: _) => v
  | _ => ""
  end.

Definition Req_set_Header (h : gmap string (list string)) (r : http_Request)
  : http_Request :=
  {| Req_Method := Req_Method r; Req_URL := Req_URL r; Req_Proto := Req_Proto r;
     Req_Header := h; Req_Body := Req_Body r; Req_Host := Req_Host r |}.

Definition Req_set_URL (u : url_URL) (r : http_Request) : http_Request :=
  {| Req_Method := Req_Method r; Req_URL := u; Req_Proto := Req_Proto r;
     Req_Header := Req_Header r; Req_Body := Req_Body r; Req_Host := Req_Host r |}.

(** ** Byte-string helpers (Go's [strings] package) *)

(** [strings.Cut(s, sep)] for a one-byte separator: the text before and
    after the first [sep], or [(s, "", false)] when there is none. *)
Fixpoint strings_Cut (sep : ascii) (s : string) : string * string * bool :=
  match s with
  | EmptyString => (EmptyString, EmptyString, false)
  | String c s' =>
      if decide (c = sep) then (EmptyString, s', true)
      else let '(before, after, found) := strings_Cut sep s' in
           (String c before, after, found)
  end.

(** [strings.Contains(s, string(c))]. *)
Fixpoint strings_ContainsByte (c : ascii) (s : string) : bool :=
  match s with
  | EmptyString => false
  | String d s' => bool_decide (d = c) || strings_ContainsByte c s'
  end.

(** [strings.TrimSuffix(s, ":")]. *)
Fixpoint TrimSuffix_colon (s : string) : string :=
  match s with
  | EmptyString => EmptyString
  | String c EmptyString => if decide (c = ":"%char) then EmptyString else s
  | String c s' => String c (TrimSuffix_colon s')
  end.

(** [strings.Join(l, sep)]. *)
Fixpoint strings_Join (sep : string) (l : list string) : string :=
  match l with
  | [] => ""
  | [x] => x
  | x :: l' => x +:+ sep +:+ strings_Join sep l'
  end.

Definition byte_in (lo hi c : ascii) : bool :=
  (N_of_ascii lo <=? N_of_ascii c)%N && (N_of_ascii c <=? N_of_ascii hi)%N.

Definition is_alnum (c : ascii) : bool :=
  byte_in "a" "z" c || byte_in "A" "Z" c || byte_in "0" "9" c.

(** ** net/url: query escaping and [Values] *)

(** [shouldEscape(c, encodeQueryComponent)]: everything but the unreserved
    characters is escaped. *)
Definition shouldEscape (c : ascii) : bool :=
  if is_alnum c then false
  else if bool_decide (c ∈ ["-"; "_"; "."; "~"]%char) then false
  else true.

Definition upperhex (n : N) : ascii :=
  match String.get (N.to_nat n) "0123456789ABCDEF" with
  | Some c => c
  | None => "0"%char
  end.

(** [url.QueryEscape]. *)
Fixpoint QueryEscape (s : string) : string :=
  match s with
  | EmptyString => EmptyString
  | String c s' =>
      if decide (c = " "%char) then String "+" (QueryEscape s')
      else if shouldEscape c then
        String "%" (String (upperhex (N_of_ascii c / 16))
                      (String (upperhex (N_of_ascii c mod 16)) (QueryEscape s')))
      else String c (QueryEscape s')
  end.

(** [v.Set(key, value)] on a [url.Values]. *)
Definition Values_Set (key val : string) (v : gmap string (list string))
  : gmap string (list string) := <[key := [val]]> v.

Definition string_le (a b : string) : Prop := String.leb a b = true.

#[global] Instance string_le_dec : RelDecision string_le.
Proof. intros a b. unfold string_le. apply _. Defined.

(** The keys of a [url.Values] as [slices.Sort] leaves them: in increasing
    byte-wise order. *)
Definition sorted_keys (v : gmap string (list string)) : list string :=
  merge_sort string_le (map_to_list v).*1.

(** The inner loop of [Encode]: one [key=value] pair per value of the key,
    preceded by [&] unless the buffer is still empty. *)
Definition Encode_key (v : gmap string (list string)) (buf : string)
    (k : string) : string :=
  let vs := default [] (v !! k) in
  let keyEscaped := QueryEscape k in
  fold_left
    (λ buf val,
       let buf := if (0 <? String.length buf)%nat
                  then buf +:+ "&" else buf in
       buf +:+ keyEscaped +:+ "=" +:+ QueryEscape val)
    vs buf.

(** [v.Encode()]. *)
Definition Values_Encode (v : gmap string (list string)) : string :=
  if decide (size v = 0%nat) then ""
  else fold_left (Encode_key v) (sorted_keys v) "".

(** The [key=value] pairs [Encode] writes, in the order it writes them. *)
Definition Values_pairs (v : gmap string (list string)) : list (string * string) :=
  flat_map (λ k, (λ val, (k, val)) <$> default [] (v !! k)) (sorted_keys v).

(** One written pair. *)
Definition pair_segment (kv : string * string) : string :=
  QueryEscape kv.1 +:+ "=" +:+ QueryEscape kv.2.

(** [unhex], on a byte that [ishex] accepts. *)
Definition unhex (c : ascii) : option N :=
  if byte_in "0" "9" c then Some (N_of_ascii c - N_of_ascii "0")%N
  else if byte_in "a" "f" c then Some (N_of_ascii c - N_of_ascii "a" + 10)%N
  else if byte_in "A" "F" c then Some (N_of_ascii c - N_of_ascii "A" + 10)%N
  else None.

(** [url.QueryUnescape]; [None] is the [EscapeError] a [%] not followed by
    two hexadecimal digits gives. *)
Fixpoint QueryUnescape (s : string) : option string :=
  match s with
  | EmptyString => Some EmptyString
  | String c s' =>
      if decide (c = "%"%char) then
        match s' with
        | String a (String b r) =>
            match unhex a, unhex b with
            | Some x, Some y =>
                option_map (String (ascii_of_N (x * 16 + y))) (QueryUnescape r)
            | _, _ => None
            end
        | _ => None
        end
      else if decide (c = "+"%char)
      then option_map (String " ") (QueryUnescape s')
      else option_map (String c) (QueryUnescape s')
  end.

(** The loop of [parseQuery]: each round cuts the next [&]-separated piece
    off [query], so [fuel] rounds are enough for a query of [fuel] bytes. *)
Fixpoint parseQuery (fuel : nat) (m : gmap string (list string))
    (err : option error) (query : string)
  : gmap string (list string) * option error :=
  match fuel with
  | O => (m, err)
  | S fuel' =>
      if decide (query = "") then (m, err)
      else
        let '(key, query', _) := strings_Cut "&" query in
        if strings_ContainsByte ";" key
        then parseQuery fuel' m
               (Some (Errorf "invalid semicolon separator in query")) query'
        else if decide (key = "") then parseQuery fuel' m err query'
        else
          let '(key, val, _) := strings_Cut "=" key in
          match QueryUnescape key, QueryUnescape val with
          | Some key1, Some val1 =>
              parseQuery fuel'
                (<[key1 := default [] (m !! key1) ++ [val1]]> m) err query'
          | _, _ =>
              parseQuery fuel' m
                (match err with
                 | None => Some (LibError "net/url" "invalid URL escape")
                 | Some _ => err
                 end) query'
          end
  end.

(** [url.ParseQuery]. *)
Definition url_ParseQuery (query : string)
  : gmap string (list string) * option error :=
  parseQuery (String.length query) ∅ None query.

(** ** net/http: request construction *)

(** [httpguts.IsTokenRune] on a byte. *)
Definition isToken (c : ascii) : bool :=
  is_alnum c
  || bool_decide (c ∈ ["!"; "#"; "$"; "%"; "&"; "'"; "*"; "+"; "-"; ".";
                       "^"; "_"; "`"; "|"; "~"]%char).

Fixpoint all_bytes (f : ascii → bool) (s : string) : bool :=
  match s with
  | EmptyString => true
  | String c s' => f c && all_bytes f s'
  end.

Definition validMethod (method : string) : bool :=
  (0 <? String.length method)%nat && all_bytes isToken method.

(** [removeEmptyPort]: a host ending in [:] has that colon as its last
    colon, after any [']'], so the port test succeeds exactly when the
    suffix is there to trim. *)
Definition removeEmptyPort (host : string) : string := TrimSuffix_colon host.

(** ** Response entities *)

(** [float64], as its bit pattern. *)
Definition float64 : Type := Z.

(** The bit pattern of [+0.0], the zero value of [float64]. *)
Definition float64_zero : float64 := 0%Z.

(** [time.Time]: the wall and monotonic words and the location name. *)
Record time_Time : Type := {
  Time_wall : N;
  Time_ext : Z;
  Time_loc : option string
}.

Definition time_Time_zero : time_Time :=
  {| Time_wall := 0; Time_ext := 0; Time_loc := None |}.

Record AccessToken_Athlete : Type := {
  TokAthlete_ID : N;
  TokAthlete_Username : string;
  TokAthlete_Firstname : string;
  TokAthlete_Lastname : string
}.

Record AccessToken : Type := {
  Tok_Type : string;
  Tok_ExpiresAt : Z;
  Tok_ExpiresIn : Z;
  Tok_RefreshToken : string;
  Tok_AccessToken : string;
  Tok_Athlete : AccessToken_Athlete
}.

Definition AccessToken_zero : AccessToken :=
  {| Tok_Type := ""; Tok_ExpiresAt := 0; Tok_ExpiresIn := 0;
     Tok_RefreshToken := ""; Tok_AccessToken := "";
     Tok_Athlete := {| TokAthlete_ID := 0; TokAthlete_Username := "";
                       TokAthlete_Firstname := ""; TokAthlete_Lastname := "" |} |}.

Record Split : Type := {
  Split_Distance : float64;
  Split_ElevationDifference : float64;
  Split_ElapsedTime : N;
  Split_MovingTime : N;
  Split_AverageSpeed : float64;
  Split_AverageGradeAdjustedSpeed : float64;
  Split_AverageHeartRate : float64;
  Split_PaceZone : N
}.

Record Lap : Type := {
  Lap_ID : N;
  Lap_Split : N;
  Lap_Index : N;
  Lap_Name : string;
  Lap_Distance : float64;
  Lap_ElapsedTime : N;
  Lap_MovingTime : N;
  Lap_AverageSpeed : float64;
  Lap_AverageHeartRate : float64;
  Lap_AverageCadence : float64;
  Lap_MaxSpeed : float64;
  Lap_MaxHeartRate : float64;
  Lap_TotalElevationGain : float64;
  Lap_PaceZone : N
}.

Record Activity_Map : Type := {
  Map_ID : string;
  Map_Polyline : string;
  Map_SummaryPolyline : string
}.

(** [Activity]; a nil slice and an empty slice are both [[]]: nothing in
    the repository tells them apart. *)
Record Activity : Type := {
  Act_ID : N;
  Act_ExternalID : string;
  Act_UploadId : Z;
  Act_Name : string;
  Act_Description : string;
  Act_Type : string;
  Act_Distance : float64;
  Act_MovingTime : N;
  Act_ElapsedTime : N;
  Act_AverageSpeed : float64;
  Act_AverageCadence : float64;
  Act_AverageHeartRate : float64;
  Act_MaxSpeed : float64;
  Act_MaxHeartRate : float64;
  Act_MaxWatts : float64;
  Act_Score : float64;
  Act_Calories : float64;
  Act_TotalElevationGain : float64;
  Act_HighestElevation : float64;
  Act_LowestElevation : float64;
  Act_StartLocation : list float64;
  Act_EndLocation : list float64;
  Act_DeviceName : string;
  Act_StartAt : time_Time;
  Act_Splits : list Split;
  Act_Laps : list Lap;
  Act_Athlete_ID : N;
  Act_Map : Activity_Map
}.

Definition Activity_zero : Activity :=
  {| Act_ID := 0; Act_ExternalID := ""; Act_UploadId := 0; Act_Name := "";
     Act_Description := ""; Act_Type := ""; Act_Distance := float64_zero;
     Act_MovingTime := 0; Act_ElapsedTime := 0;
     Act_AverageSpeed := float64_zero; Act_AverageCadence := float64_zero;
     Act_AverageHeartRate := float64_zero; Act_MaxSpeed := float64_zero;
     Act_MaxHeartRate := float64_zero; Act_MaxWatts := float64_zero;
     Act_Score := float64_zero; Act_Calories := float64_zero;
     Act_TotalElevationGain := float64_zero;
     Act_HighestElevation := float64_zero;
     Act_LowestElevation := float64_zero;
     Act_StartLocation := []; Act_EndLocation := []; Act_DeviceName := "";
     Act_StartAt := time_Time_zero; Act_Splits := []; Act_Laps := [];
     Act_Athlete_ID := 0;
     Act_Map := {| Map_ID := ""; Map_Polyline := ""; Map_SummaryPolyline := "" |} |}.

(** ** What the repository imports *)

(** [types.Date] of go-types: the two methods [Queries] calls, and the
    fact that the zero value of the type is the zero date. *)
Class DateAPI (Date : Type) : Type := {
  Date_zero : Date;
  Date_IsZero : Date → bool;
  Date_Unix : Date → Z;
  Date_zero_IsZero : Date_IsZero Date_zero = true
}.

(** The rest of the outside world.
    - [url_Parse] is [url.Parse];
    - [invalid_method] is the error [http.NewRequest] gives for a method
      that is not a token;
    - [convert_String] is [convert.String] of go-convert;
    - [Client_Do] is the [Do] method of [http.Client]: what the network answers to a
      request, given the client and the requests it has seen so far; both
      components of the Go result pair may be nil;
    - [json_Unmarshal_*] is [json.Unmarshal] at the three target types: it
      updates the target and may fail. *)
Class Platform : Type := {
  url_Parse : string → url_URL + error;
  invalid_method : string → error;
  convert_String : value → string;
  Client_Do : http_Client → list http_Request → http_Request →
              option http_Response * option error;
  json_Unmarshal_AccessToken : string → AccessToken → AccessToken * option error;
  json_Unmarshal_Activity : string → Activity → Activity * option error;
  json_Unmarshal_Activities :
    string → list Activity → list Activity * option error
}.

(** [strconv]'s decimal rendering, as [%d] prints it. *)
Definition format_uint (n : N) : string := NilEmpty.string_of_uint (N.to_uint n).
Definition format_int (z : Z) : string := NilEmpty.string_of_int (Z.to_int z).

(** ** The monad of client methods *)

Record world : Type := {
  self : strava;
  sent : list http_Request;
  closed : list http_Response
}.

(** A call either returns, or panics; both leave a world behind. *)
Inductive outcome (A : Type) : Type :=
| Returns (a : A) (w : world)
| Panics (w : world).
Arguments Returns {A} a w.
Arguments Panics {A} w.

Definition M (A : Type) : Type := world → outcome A.

Definition ret {A} (a : A) : M A := λ w, Returns a w.

Definition bind {A B} (c : M A) (k : A → M B) : M B :=
  λ w, match c w with
       | Returns a w' => k a w'
       | Panics w' => Panics w'
       end.

Definition panic {A} : M A := λ w, Panics w.

Definition get_self : M strava := λ w, Returns (self w) w.

Definition put_self (s : strava) : M unit :=
  λ w, Returns tt {| self := s; sent := sent w; closed := closed w |}.

Notation "x <- c ;; k" := (bind c (λ x, k))
  (at level 100, c at next level, right associativity).

Definition final_world {A} (o : outcome A) : world :=
  match o with Returns _ w => w | Panics w => w end.

(** Running [c] from [w] hands exactly the one request [req] to the
    transport. *)
Definition sends {A} (c : M A) (w : world) (req : http_Request) : Prop :=
  sent (final_world (c w)) = sent w ++ [req].

(** Running [c] from [w] hands nothing to the transport. *)
Definition sends_nothing {A} (c : M A) (w : world) : Prop :=
  sent (final_world (c w)) = sent w.

(** [defer d] around [body]: [d] runs when [body] is left, by a return or
    by a panic. *)
Definition deferring {A} (d : M unit) (body : M A) : M A :=
  λ w, match body w with
       | Returns a w' =>
           match d w' with
           | Returns _ w'' => Returns a w''
           | Panics w'' => Panics w''
           end
       | Panics w' => Panics (final_world (d w'))
       end.

(** [closeHTTPResponse]: closes the body of a non-nil response. *)
Definition closeHTTPResponse (r : option http_Response) : M unit :=
  λ w, match r with
       | Some resp =>
           Returns tt {| self := self w; sent := sent w;
                         closed := closed w ++ [resp] |}
       | None => Returns tt w
       end.

Definition strava_SetAccessToken (tok : string) : M unit :=
  s <- get_self ;;
  put_self {| Client := Client s; cfg := cfg s;
              accessToken := tok; userID := userID s |}.

Definition strava_SetUserID (id : N) : M unit :=
  s <- get_self ;;
  put_self {| Client := Client s; cfg := cfg s;
              accessToken := accessToken s; userID := id |}.

Definition strava_AuthorizationURL (state : string) : M string :=
  s <- get_self ;;
  ret ("https://www.strava.com/oauth/authorize?client_id=" +:+ ClientID (cfg s)
       +:+ "&response_type=code&redirect_uri=http://runjoy.kovacou.com&approval_prompt=force&scope="
       +:+ Scope (cfg s) +:+ "&state=" +:+ state).

Section client.
Context `{Platform}.

(** [http.NewRequest(method, url, body)]. *)
Definition http_NewRequest (method url : string) (body : option string)
  : http_Request + error :=
  let method := if decide (method = "") then "GET" else method in
  if negb (validMethod method) then inr (invalid_method method)
  else match url_Parse url with
       | inr e => inr e
       | inl u =>
           let u := URL_set_Host (removeEmptyPort (URL_Host u)) u in
           inl {| Req_Method := method; Req_URL := u;
                  Req_Proto := "HTTP/1.1"; Req_Header := ∅;
                  Req_Body := body; Req_Host := URL_Host u |}
       end.

(** [s.Do(req)]: the request goes on the wire and the transport answers. *)
Definition strava_Do (req : http_Request)
  : M (option http_Response * option error) :=
  λ w, Returns (Client_Do (Client (self w)) (sent w) req)
               {| self := self w; sent := sent w ++ [req];
                  closed := closed w |}.

(** The loop [for k, val := range p.Queries { q.Set(k, convert.String(val)) }]
    run over the entries in the order [entries]. *)
Definition range_Queries (entries : list (string * value))
    (q : gmap string (list string)) : gmap string (list string) :=
  fold_left (λ q kv, Values_Set kv.1 (convert_String kv.2) q) entries q.

(** [Request], from its first line up to the call of [s.Do]: the request
    it constructs, or the error of [http.NewRequest]. *)
Definition build_request (s : strava) (method uri : string)
    (p : RequestParams) : http_Request + error :=
  let values : option string := None in
  let queries := default ∅ (Queries p) in
  let _ := default ∅ (Values p) in
  match http_NewRequest method uri values with
  | inr e => inr e
  | inl req =>
      let h := Req_Header req in
      let h := if WithBearer p
               then Header_Set "Authorization" ("Bearer " +:+ accessToken s) h
               else h in
      let contentType :=
        if bool_decide (method = MethodPost) && negb (WithFormURLEncoded p)
        then "application/json"
        else "application/x-www-form-urlencoded" in
      let q := range_Queries (map_to_list queries) ∅ in
      let u := URL_set_RawQuery (Values_Encode q) (Req_URL req) in
      let h := Header_Set "Content-Type" contentType h in
      let h := Header_Set "Accept" "application/json;charset=UTF-8" h in
      inl (Req_set_Header h (Req_set_URL u req))
  end.

(** [Request]. Reading [r.StatusCode] panics when [r] is nil. *)
Definition strava_Request (method uri : string) (p : RequestParams)
  : M (option http_Response * option error) :=
  s <- get_self ;;
  match build_request s method uri p with
  | inr e => ret (None, Some e)
  | inl req =>
      res <- strava_Do req ;;
      match res.1 with
      | None => panic
      | Some resp =>
          if decide (StatusCode resp = StatusUnauthorized)
          then ret (res.1, Some AuthorizationError)
          else ret res
      end
  end.

Definition strava_POST (endpoint : string) (p : RequestParams)
  : M (option http_Response * option error) :=
  s <- get_self ;;
  strava_Request MethodPost (Host (cfg s) +:+ endpoint) p.

Definition strava_GET (endpoint : string) (p : RequestParams)
  : M (option http_Response * option error) :=
  s <- get_self ;;
  strava_Request MethodGet (Host (cfg s) +:+ endpoint) p.

(** The [switch grant] of [AuthorizationAccessToken]: the queries with
    the grant-specific field added, or [None] for the default case. *)
Definition grant_queries (tok grant : string) (queries : gmap string value)
  : option (gmap string value) :=
  if decide (grant = GrantAuthorizationCode)
  then Some (Map_Set "code" (VString tok) queries)
  else if decide (grant = GrantRefreshToken)
  then Some (Map_Set "refresh_token" (VString tok) queries)
  else None.

Definition strava_AuthorizationAccessToken (tok grant : string)
  : M (AccessToken * option error) :=
  s <- get_self ;;
  let at_ := AccessToken_zero in
  let queries :=
    Map_Set "client_secret" (VString (ClientSecret (cfg s)))
      (Map_Set "client_id" (VString (ClientID (cfg s))) ∅) in
  match grant_queries tok grant queries with
  | None =>
      ret (at_, Some (Errorf ("grant_type `" +:+ grant +:+ "` not supported")))
  | Some queries =>
      let queries := Map_Set "grant_type" (VString grant) queries in
      let p := {| Queries := Some queries; Values := None;
                  WithBearer := false; WithFormURLEncoded := false |} in
      res <- strava_Request MethodPost
               "https://www.strava.com/api/v3/oauth/token" p ;;
      deferring (closeHTTPResponse res.1)
        match res.2 with
        | Some _ => ret (at_, res.2)
        | None =>
            match res.1 with
            | None => panic
            | Some resp => ret (json_Unmarshal_AccessToken (Resp_Body resp) at_)
            end
        end
  end.

Definition strava_Activity (id : N) : M (Activity * option error) :=
  let out := Activity_zero in
  res <- strava_GET ("/activities/" +:+ format_uint id)
           {| Queries := None; Values := None;
              WithBearer := true; WithFormURLEncoded := false |} ;;
  deferring (closeHTTPResponse res.1)
    match res.2 with
    | Some _ => ret (out, res.2)
    | None =>
        match res.1 with
        | None => panic
        | Some r =>
            if decide (StatusCode r = StatusOK)
            then ret (json_Unmarshal_Activity (Resp_Body r) out)
            else ret (out, None)
        end
    end.

Section activities.
Context `{DateAPI Date}.

Record ActivitiesRequest : Type := {
  Before : Date;
  After : Date;
  Page : N;
  PerPage : N
}.

Definition ActivitiesRequest_zero : ActivitiesRequest :=
  {| Before := Date_zero; After := Date_zero; Page := 0; PerPage := 0 |}.

(** [Queries]: the map it returns is never nil. *)
Definition ActivitiesRequest_Queries (p : ActivitiesRequest)
  : gmap string value :=
  let m : gmap string value := ∅ in
  let m := if negb (Date_IsZero (After p))
           then Map_Set "after" (VInt64 (Date_Unix (After p))) m else m in
  let m := if negb (Date_IsZero (Before p))
           then Map_Set "before" (VInt64 (Date_Unix (Before p))) m else m in
  let m := if (0 <? Page p)%N
           then Map_Set "page" (VUint64 (Page p)) m else m in
  let m := if (0 <? PerPage p)%N
           then Map_Set "per_page" (VUint64 (PerPage p)) m else m in
  m.

Definition strava_Activities (p : ActivitiesRequest)
  : M (list Activity * option error) :=
  let out : list Activity := [] in
  res <- strava_GET "/activities"
           {| Queries := Some (ActivitiesRequest_Queries p); Values := None;
              WithBearer := true; WithFormURLEncoded := false |} ;;
  deferring (closeHTTPResponse res.1)
    match res.2 with
    | Some _ => ret (out, res.2)
    | None =>
        match res.1 with
        | None => panic
        | Some r =>
            if decide (StatusCode r = StatusOK)
            then ret (json_Unmarshal_Activities (Resp_Body r) out)
            else ret (out, None)
        end
    end.
End activities.
End client.

(** ** Concrete instances, for running the model *)

(** A date as [time.Time] keeps it: seconds since January 1 of year 1 and
    nanoseconds within the second. *)
Record TimeDate : Type := { td_sec : Z; td_nsec : Z }.

Definition unixToInternal : Z := 62135596800.

#[global] Instance TimeDate_API : DateAPI TimeDate := {|
  Date_zero := {| td_sec := 0; td_nsec := 0 |};
  Date_IsZero t := (td_sec t =? 0)%Z && (td_nsec t =? 0)%Z;
  Date_Unix t := (td_sec t - unixToInternal)%Z;
  Date_zero_IsZero := eq_refl
|}.

(** A URL splitter for the plain shape [scheme://host/path?query#fragment];
    it stands in for [url.Parse] in the examples only. *)
Definition plain_url_Parse (raw : string) : url_URL + error :=
  let '(rest, frag, _) := strings_Cut "#" raw in
  let '(rest, query, _) := strings_Cut "?" rest in
  let '(scheme, rest, found) := strings_Cut ":" rest in
  if negb found then inr (LibError "net/url" "missing protocol scheme")
  else
    let rest := match rest with
                | String "/" (String "/" r) => r
                | _ => rest
                end in
    let '(host, path, slash) := strings_Cut "/" rest in
    inl {| URL_Scheme := scheme; URL_Opaque := ""; URL_User := None;
           URL_Host := host;
           URL_Path := if slash then String "/" path else "";
           URL_RawQuery := query; URL_Fragment := frag |}.

Definition plain_convert_String (v : value) : string :=
  match v with
  | VString s => s
  | VInt64 z => format_int z
  | VUint64 n => format_uint n
  end.

(** A transport that answers the [n]-th request with the [n]-th entry of a
    script (and with the nil pair once the script is exhausted), and JSON
    decoders that accept only the empty document. *)
Definition scripted (script : list (option http_Response * option error))
  : Platform := {|
  url_Parse := plain_url_Parse;
  invalid_method m := LibError "net/http" ("net/http: invalid method " +:+ m);
  convert_String := plain_convert_String;
  Client_Do _ seen _ := nth (length seen) script (None, None);
  json_Unmarshal_AccessToken body at_ :=
    if decide (body = "{}") then (at_, None)
    else (at_, Some (LibError "encoding/json" "unexpected input"));
  json_Unmarshal_Activity body out :=
    if decide (body = "{}") then (out, None)
    else (out, Some (LibError "encoding/json" "unexpected input"));
  json_Unmarshal_Activities body out :=
    if decide (body = "[]") then ([], None)
    else (out, Some (LibError "encoding/json" "unexpected input"))
|}.

Definition demo_config : Config :=
  {| Host := "https://www.strava.com/api/v3"; ClientID := "4711";
     ClientSecret := "s3cr3t"; RedirectURI := "http://localhost/cb";
     Timeout := 10; Scope := "activity:read" |}.

Definition demo_strava : strava :=
  {| Client := Client (New demo_config); cfg := demo_config;
     accessToken := "tok123"; userID := 0 |}.

Definition demo_world : world :=
  {| self := demo_strava; sent := []; closed := [] |}.

(** The request a run put on the wire last, if any. *)
Definition last_sent {A} (o : outcome A) : option http_Request :=
  last (sent (final_world o)).

(** ** Auxiliary definitions for the statements *)

(** The world after [req] went on the wire. *)
Definition after_send (req : http_Request) (w : world) : world :=
  {| self := self w; sent := sent w ++ [req]; closed := closed w |}.

(** The world after the body of [resp] was closed. *)
Definition after_close (resp : http_Response) (w : world) : world :=
  {| self := self w; sent := sent w; closed := closed w ++ [resp] |}.

Ltac run_monad :=
  unfold strava_GET, strava_POST, strava_Request, strava_Do, deferring,
    closeHTTPResponse, bind, ret, panic, get_self, put_self; simpl.

Definition json_type : string := "application/json".
Definition form_type : string := "application/x-www-form-urlencoded".

(** A POST without form encoding, as [AuthorizationAccessToken] issues it. *)
Definition demo_json_params : RequestParams :=
  {| Queries := Some {[ "grant_type" := VString "refresh_token" ]};
     Values := Some {[ "ignored" := VString "body value" ]};
     WithBearer := true; WithFormURLEncoded := false |}.

Definition demo_token_uri : string := "https://www.strava.com/api/v3/oauth/token".

Definition demo_ok : Platform :=
  scripted [(Some {| StatusCode := 200; Resp_Body := "{}" |}, None)].

Definition request_or_empty (o : option http_Request) : http_Request :=
  default {| Req_Method := ""; Req_Proto := ""; Req_Header := ∅;
             Req_Body := None; Req_Host := "";
             Req_URL := {| URL_Scheme := ""; URL_Opaque := ""; URL_User := None;
                           URL_Host := ""; URL_Path := ""; URL_RawQuery := "";
                           URL_Fragment := "" |} |} o.

Definition demo_json_request : http_Request :=
  request_or_empty
    (last_sent (@strava_Request demo_ok MethodPost demo_token_uri
                  demo_json_params demo_world)).

(** [p] with its [Values] replaced. *)
Definition with_Values (vals : option (gmap string value)) (p : RequestParams)
  : RequestParams :=
  {| Queries := Queries p; Values := vals;
     WithBearer := WithBearer p; WithFormURLEncoded := WithFormURLEncoded p |}.

(** Transports for the examples: one that answers 401, one whose
    connection fails, one that answers 404. *)
Definition demo_401_response : http_Response :=
  {| StatusCode := 401; Resp_Body := "{}" |}.

Definition demo_unauthorized : Platform := scripted [(Some demo_401_response, None)].

Definition demo_dial_error : error :=
  LibError "net" "dial tcp: connection refused".

Definition demo_refused : Platform := scripted [(None, Some demo_dial_error)].

Definition demo_404_response : http_Response :=
  {| StatusCode := 404; Resp_Body := "Not Found" |}.

Definition demo_not_found : Platform := scripted [(Some demo_404_response, None)].

(** [needle] occurs in [s]. *)
Definition occurs_in (needle s : string) : Prop :=
  ∃ pre post, s = pre +:+ needle +:+ post.

(** The parameters [Activity] passes to [GET]. *)
Definition bearer_params : RequestParams :=
  {| Queries := None; Values := None;
     WithBearer := true; WithFormURLEncoded := false |}.

Definition demo_activity_request : http_Request :=
  request_or_empty (last_sent (@strava_Activity demo_ok 42 demo_world)).

(** ** Comparing runs from clients that differ in [userID] only *)

Definition strava_differ_only_in_userID (s1 s2 : strava) : Prop :=
  Client s1 = Client s2 ∧ cfg s1 = cfg s2 ∧ accessToken s1 = accessToken s2.

Definition differ_only_in_userID (w1 w2 : world) : Prop :=
  strava_differ_only_in_userID (self w1) (self w2) ∧
  sent w1 = sent w2 ∧ closed w1 = closed w2.

(** Two runs agree: both return or both panic, the returned values are
    equal, the same requests went on the wire, the same bodies were closed,
    and the clients still differ in [userID] at most. *)
Definition agree {A} (o1 o2 : outcome A) : Prop :=
  match o1, o2 with
  | Returns a1 w1, Returns a2 w2 => a1 = a2 ∧ differ_only_in_userID w1 w2
  | Panics w1, Panics w2 => differ_only_in_userID w1 w2
  | _, _ => False
  end.

Definition with_userID (id : N) (w : world) : world :=
  {| self := {| Client := Client (self w); cfg := cfg (self w);
                accessToken := accessToken (self w); userID := id |};
     sent := sent w; closed := closed w |}.

Definition outcome_map {A} (f : world → world) (o : outcome A) : outcome A :=
  match o with
  | Returns a w => Returns a (f w)
  | Panics w => Panics (f w)
  end.

(** [c] never reads [userID]: overwriting the field before the run is the
    same as overwriting it after. *)
Definition ignores_userID {A} (c : M A) : Prop :=
  ∀ id w, c (with_userID id w) = outcome_map (with_userID id) (c w).

Definition demo_world_user7 : world := with_userID 7 demo_world.

(** ** Reading a query string back *)

(** [m[key] = append(m[key], value)], the last line of the [parseQuery] loop. *)
Definition add_pair (m : gmap string (list string)) (kv : string * string)
  : gmap string (list string) :=
  <[kv.1 := default [] (m !! kv.1) ++ [kv.2]]> m.

(** What the two loops of [Encode] do to the buffer, given the pairs
    already rendered. *)
Definition write_segments (buf : string) (segs : list string) : string :=
  fold_left
    (λ buf seg, (if (0 <? String.length buf)%nat then buf +:+ "&" else buf) +:+ seg)
    segs buf.
(** The bytes that give a query string its structure. *)
Definition is_separator (c : ascii) : Prop :=
  c = "&"%char ∨ c = "="%char ∨ c = ";"%char.

(** Case analysis on the 256 values of a byte. *)
Ltac each_byte c := destruct c as [[] [] [] [] [] [] [] []].

Definition demo_query_map : gmap string value :=
  {[ "page" := VUint64 2; "q" := VString "run & ride"; "after" := VInt64 (-5) ]}.

Definition demo_query_params : RequestParams :=
  {| Queries := Some demo_query_map; Values := None;
     WithBearer := true; WithFormURLEncoded := false |}.

Definition demo_query_request : http_Request :=
  request_or_empty
    (last_sent (@strava_Request demo_ok MethodGet demo_token_uri
                  demo_query_params demo_world)).

(** ** Further auxiliary definitions *)

Definition accept_type : string := "application/json;charset=UTF-8".

(** The method [http.NewRequest] records: GET for the empty string. *)
Definition effective_method (method : string) : string :=
  if decide (method = "") then "GET" else method.

(** The headers [Request] gives a request, as a function of the method,
    the parameters and the client's token. *)
Definition expected_header (method : string) (p : RequestParams)
    (tok key : string) : option (list string) :=
  if decide (key = "Accept") then Some [accept_type]
  else if decide (key = "Content-Type")
  then Some [if bool_decide (method = MethodPost) && negb (WithFormURLEncoded p)
             then json_type else form_type]
  else if decide (key = "Authorization")
  then (if WithBearer p then Some ["Bearer " +:+ tok] else None)
  else None.

(** A transport that answers 200 with a body, for the examples. *)
Definition demo_200_response : http_Response :=
  {| StatusCode := 200; Resp_Body := "{}" |}.

(** A transport whose answer is a server error with a JSON body. *)
Definition demo_500_response : http_Response :=
  {| StatusCode := 500; Resp_Body := "{}" |}.

Definition demo_server_error : Platform := scripted [(Some demo_500_response, None)].

Definition demo_uri_with_query : string :=
  "https://www.strava.com:/api/v3/athlete?page=9#top".

Definition demo_plain_request : http_Request :=
  request_or_empty
    (last_sent (@strava_Request demo_ok MethodGet demo_uri_with_query
                  RequestParams_zero demo_world)).

(** ** The shape the three callers of [Request] share

    [AuthorizationAccessToken], [Activity] and [Activities] all call
    [Request], defer [closeHTTPResponse], return their zero value with the
    error when there is one, and otherwise hand the response to a decoder.
    [fetch] is that shape; the lemmas [*_fetch] show each caller equal to
    it. *)
Definition fetch `{Platform} {A} (method uri : string) (p : RequestParams)
    (zero : A) (decode : http_Response → A * option error)
  : M (A * option error) :=
  res <- strava_Request method uri p ;;
  deferring (closeHTTPResponse res.1)
    match res.2 with
    | Some _ => ret (zero, res.2)
    | None =>
        match res.1 with
        | None => panic
        | Some r => ret (decode r)
        end
    end.

(** Decode on status 200 only, as [Activity] and [Activities] do. *)
Definition decode_200 {A} (unmarshal : string → A → A * option error)
    (zero : A) (r : http_Response) : A * option error :=
  if decide (StatusCode r = StatusOK) then unmarshal (Resp_Body r) zero
  else (zero, None).

Definition token_endpoint : string := "https://www.strava.com/api/v3/oauth/token".

(** The key under which [AuthorizationAccessToken] sends its token. *)
Definition grant_field (grant : string) : string :=
  if decide (grant = GrantAuthorizationCode) then "code" else "refresh_token".

(** The queries of the token exchange, for a supported grant. *)
Definition exchange_queries (c : Config) (tok grant : string)
  : gmap string value :=
  {[ "client_id" := VString (ClientID c);
     "client_secret" := VString (ClientSecret c);
     grant_field grant := VString tok;
     "grant_type" := VString grant ]}.

Definition exchange_params (c : Config) (tok grant : string) : RequestParams :=
  {| Queries := Some (exchange_queries c tok grant); Values := None;
     WithBearer := false; WithFormURLEncoded := false |}.

Definition activities_params `{DateAPI Date} (p : ActivitiesRequest)
  : RequestParams :=
  {| Queries := Some (ActivitiesRequest_Queries p); Values := None;
     WithBearer := true; WithFormURLEncoded := false |}.

Definition supported_grant (grant : string) : Prop :=
  grant = GrantAuthorizationCode ∨ grant = GrantRefreshToken.

(** The world [fetch] leaves when the transport answered with [resp]. *)
Definition after_exchange (req : http_Request) (resp : http_Response)
    (w : world) : world := after_close resp (after_send req w).

(** The error a caller of [Request] sees for an answer [resp] that came
    with the transport error [err]. *)
Definition request_error (resp : http_Response) (err : option error)
  : option error :=
  if decide (StatusCode resp = StatusUnauthorized)
  then Some AuthorizationError else err.

(** Running [c] from [w] hands at most one request to the transport. *)
Definition sends_at_most_once {A} (c : M A) (w : world) : Prop :=
  sends_nothing c w ∨ ∃ req, sends c w req.

(** Running [c] from [w] leaves the client as it was. *)
Definition keeps_client {A} (c : M A) (w : world) : Prop :=
  self (final_world (c w)) = self w.

(** Running [c] from [w] closes exactly the bodies [resps]. *)
Definition closes {A} (c : M A) (w : world) (resps : list http_Response)
  : Prop :=
  closed (final_world (c w)) = closed w ++ resps.

Definition demo_redirect_error : error :=
  LibError "net/http" "stopped after 10 redirects".

Definition demo_302_response : http_Response :=
  {| StatusCode := 302; Resp_Body := "" |}.

(** A transport that gives up on redirects: a response and an error. *)
Definition demo_redirects : Platform :=
  scripted [(Some demo_302_response, Some demo_redirect_error)].

Definition demo_activities_request : ActivitiesRequest (Date := TimeDate) :=
  {| Before := {| td_sec := 63745056000; td_nsec := 0 |};
     After := Date_zero; Page := 2; PerPage := 30 |}.

Definition demo_activities_sent : http_Request :=
  request_or_empty
    (last_sent (@strava_Activities demo_ok _ _ demo_activities_request demo_world)).

Definition demo_exchange_sent : http_Request :=
  request_or_empty
    (last_sent (@strava_AuthorizationAccessToken demo_ok "c0de"
                  GrantAuthorizationCode demo_world)).

(** A client whose configured host is not a URL. *)
Definition demo_world_bad_host : world :=
  {| self := {| Client := Client demo_strava;
                cfg := {| Host := "no scheme"; ClientID := "4711";
                          ClientSecret := "s3cr3t"; RedirectURI := "";
                          Timeout := 10; Scope := "read" |};
                accessToken := "tok123"; userID := 0 |};
     sent := []; closed := [] |}.

(** [c] closes the body of the response it receives, once, and nothing
    else: nothing when it sends nothing or the transport gives no response. *)
Definition closes_what_it_receives `{Platform} {A} (c : M A) (w : world)
  : Prop :=
  (sends_nothing c w → closes c w []) ∧
  (∀ req resp err,
     sends c w req →
     Client_Do (Client (self w)) (sent w) req = (Some resp, err) →
     closes c w [resp]) ∧
  (∀ req err,
     sends c w req →
     Client_Do (Client (self w)) (sent w) req = (None, err) →
     closes c w []).

(** [c], having sent [req] and received [resp] beside [err], returns
    [zero] with the error [Request] reports, after closing the body. *)
Definition reports_error `{Platform} {A} (c : M (A * option error))
    (zero : A) (w : world) : Prop :=
  ∀ req resp err e,
    sends c w req →
    Client_Do (Client (self w)) (sent w) req = (Some resp, err) →
    request_error resp err = Some e →
    c w = Returns (zero, Some e) (after_exchange req resp w).

(** [int64] range. *)
Definition in_int64 (z : Z) : Prop := (- 2 ^ 63 <= z < 2 ^ 63)%Z.

(** [uint16] range. *)
Definition in_uint16 (n : N) : Prop := (n < 2 ^ 16)%N.

(** A second order in which [range] may visit [demo_query_map]. *)
Definition demo_query_order : list (string * value) :=
  reverse (map_to_list demo_query_map).

Definition demo_fresh_world : world :=
  {| self := New demo_config; sent := []; closed := [] |}.

Definition demo_fresh_request : http_Request :=
  request_or_empty (last_sent (@strava_Activity demo_ok 42 demo_fresh_world)).

Definition demo_world_retokened : world :=
  final_world (strava_SetAccessToken "fresh-token" demo_world).

Definition demo_retokened_request : http_Request :=
  request_or_empty
    (last_sent (@strava_Request demo_ok MethodGet demo_token_uri bearer_params
                  demo_world_retokened)).

(** The fixed text of the authorization URL between client id and scope. *)
Definition authorize_redirect : string :=
  "&response_type=code&redirect_uri=http://runjoy.kovacou.com&approval_prompt=force&scope=".

Definition demo_form_params : RequestParams :=
  {| Queries := None; Values := None;
     WithBearer := false; WithFormURLEncoded := true |}.

Definition demo_post_sent : http_Request :=
  request_or_empty
    (last_sent (@strava_POST demo_ok "/uploads" demo_form_params demo_world)).

(** * Properties *)

Section request_facts.
Context `{Platform}.

(** [Request] is [build_request] followed by one call of the transport. *)
Lemma Request_unfold (method uri : string) (p : RequestParams) (w : world) :
  strava_Request method uri p w =
  match build_request (self w) method uri p with
  | inr e => Returns (None, Some e) w
  | inl req =>
      let res := Client_Do (Client (self w)) (sent w) req in
      match res.1 with
      | None => Panics (after_send req w)
      | Some resp =>
          if decide (StatusCode resp = StatusUnauthorized)
          then Returns (res.1, Some AuthorizationError) (after_send req w)
          else Returns res (after_send req w)
      end
  end.
Proof.
  run_monad. destruct (build_request _ _ _ _) as [req|e]; [|done].
  simpl. destruct (Client_Do _ _ _) as [[resp|] err]; simpl; [|done].
  by destruct (decide _).
Qed.

Lemma Request_final_sent (method uri : string) (p : RequestParams) (w : world) :
  sent (final_world (strava_Request method uri p w)) =
  match build_request (self w) method uri p with
  | inr _ => sent w
  | inl req => sent w ++ [req]
  end.
Proof.
  rewrite Request_unfold.
  destruct (build_request _ _ _ _) as [req|e]; [|done].
  simpl. destruct (Client_Do _ _ _) as [[resp|] err]; simpl; [|done].
  by destruct (decide _).
Qed.

(** The request [Request] sends is the one [build_request] made. *)
Lemma Request_sends_iff (method uri : string) (p : RequestParams)
    (w : world) (req : http_Request) :
  sends (strava_Request method uri p) w req ↔
  build_request (self w) method uri p = inl req.
Proof.
  unfold sends. rewrite Request_final_sent.
  destruct (build_request _ _ _ _) as [req'|e]; split; intros Hs.
  - apply app_inj_tail in Hs as [_ ->]. done.
  - by inversion Hs.
  - apply (f_equal length) in Hs. rewrite length_app in Hs. simpl in Hs. lia.
  - done.
Qed.

(** What [build_request] puts into a request, field by field. *)
Lemma build_request_inv (s : strava) (method uri : string)
    (p : RequestParams) (req : http_Request) :
  build_request s method uri p = inl req →
  ∃ req0, http_NewRequest method uri None = inl req0 ∧
    Req_Body req = Req_Body req0 ∧
    Req_Method req = Req_Method req0 ∧
    Req_URL req =
      URL_set_RawQuery
        (Values_Encode (range_Queries (map_to_list (default ∅ (Queries p))) ∅))
        (Req_URL req0) ∧
    Req_Header req =
      Header_Set "Accept" "application/json;charset=UTF-8"
        (Header_Set "Content-Type"
           (if bool_decide (method = MethodPost) && negb (WithFormURLEncoded p)
            then "application/json" else "application/x-www-form-urlencoded")
           (if WithBearer p
            then Header_Set "Authorization" ("Bearer " +:+ accessToken s)
                   (Req_Header req0)
            else Req_Header req0)).
Proof.
  unfold build_request.
  destruct (http_NewRequest method uri None) as [req0|e]; [|done].
  intros [= <-]. exists req0. done.
Qed.

Lemma NewRequest_inv (method uri : string) (body : option string)
    (req0 : http_Request) :
  http_NewRequest method uri body = inl req0 →
  Req_Header req0 = ∅ ∧ Req_Body req0 = body.
Proof.
  unfold http_NewRequest. destruct (negb _); [done|].
  destruct (url_Parse uri); [|done]. by intros [= <-].
Qed.
End request_facts.

(** C1. Whatever method and parameters [Request] is called with, the
    request it sends has exactly one Content-Type value; that value is
    application/json exactly when the method is POST and
    WithFormURLEncoded is false, and it is
    application/x-www-form-urlencoded in every other case. *)
Theorem C1_content_type `{Platform} (method uri : string) (p : RequestParams)
    (w : world) (req : http_Request) :
  sends (strava_Request method uri p) w req →
  ∃ ct, Req_Header req !! "Content-Type" = Some [ct] ∧
        Header_Get "Content-Type" (Req_Header req) = ct ∧
        (ct = json_type ↔ method = MethodPost ∧ WithFormURLEncoded p = false) ∧
        (ct = form_type ↔ ¬ (method = MethodPost ∧ WithFormURLEncoded p = false)).
Proof.
  intros Hs%Request_sends_iff%build_request_inv.
  destruct Hs as (req0 & _ & _ & _ & _ & Hh).
  eexists. rewrite Hh. unfold Header_Get, Header_Set.
  rewrite lookup_insert_ne by done. rewrite lookup_insert_eq.
  split; [done|]. split; [done|].
  destruct (bool_decide_reflect (method = MethodPost)) as [->|Hm];
    destruct (WithFormURLEncoded p); simpl; unfold json_type, form_type;
    intuition (first [discriminate | congruence]).
Qed.

Lemma C1_content_type_witness :
  sends (@strava_Request demo_ok MethodPost demo_token_uri demo_json_params)
    demo_world demo_json_request ∧
  ∃ ct, Req_Header demo_json_request !! "Content-Type" = Some [ct] ∧
        Header_Get "Content-Type" (Req_Header demo_json_request) = ct ∧
        (ct = json_type ↔
           MethodPost = MethodPost ∧ WithFormURLEncoded demo_json_params = false) ∧
        (ct = form_type ↔
           ¬ (MethodPost = MethodPost ∧ WithFormURLEncoded demo_json_params = false)).
Proof.
  assert (Hs : sends (@strava_Request demo_ok MethodPost demo_token_uri
                        demo_json_params) demo_world demo_json_request)
    by (vm_compute; reflexivity).
  split; [exact Hs|].
  exact (@C1_content_type demo_ok MethodPost demo_token_uri demo_json_params
           demo_world demo_json_request Hs).
Defined.

(** C5. When WithBearer is true the request [Request] sends carries the
    Authorization header "Bearer " followed by the client's current access
    token, whatever that token is (the empty string included); when
    WithBearer is false the request has no Authorization header. *)
Theorem C5_bearer `{Platform} (method uri : string) (p : RequestParams)
    (w : world) (req : http_Request) :
  sends (strava_Request method uri p) w req →
  (WithBearer p = true →
     Req_Header req !! "Authorization" = Some ["Bearer " +:+ accessToken (self w)] ∧
     Header_Get "Authorization" (Req_Header req) = "Bearer " +:+ accessToken (self w)) ∧
  (WithBearer p = false → Req_Header req !! "Authorization" = None).
Proof.
  intros Hs%Request_sends_iff%build_request_inv.
  destruct Hs as (req0 & [Hh0 _]%NewRequest_inv & _ & _ & _ & Hh).
  rewrite Hh, Hh0. unfold Header_Get, Header_Set.
  rewrite !lookup_insert_ne by done.
  split; intros ->.
  - by rewrite lookup_insert_eq.
  - apply lookup_empty.
Qed.

Lemma C5_bearer_witness :
  sends (@strava_Request demo_ok MethodPost demo_token_uri demo_json_params)
    demo_world demo_json_request ∧
  (WithBearer demo_json_params = true →
     Req_Header demo_json_request !! "Authorization" = Some ["Bearer tok123"] ∧
     Header_Get "Authorization" (Req_Header demo_json_request) = "Bearer tok123") ∧
  (WithBearer demo_json_params = false →
     Req_Header demo_json_request !! "Authorization" = None).
Proof.
  assert (Hs : sends (@strava_Request demo_ok MethodPost demo_token_uri
                        demo_json_params) demo_world demo_json_request)
    by (vm_compute; reflexivity).
  split; [exact Hs|].
  exact (@C5_bearer demo_ok MethodPost demo_token_uri demo_json_params
           demo_world demo_json_request Hs).
Defined.

(** C9. For every method and every RequestParams the request [Request]
    sends has no body, and the Values mapping has no effect on the request
    at all: replacing it by any other mapping sends the same request. *)
Theorem C9_body_empty `{Platform} (method uri : string) (p : RequestParams)
    (w : world) (req : http_Request) :
  sends (strava_Request method uri p) w req →
  Req_Body req = None ∧
  ∀ vals, sends (strava_Request method uri (with_Values vals p)) w req.
Proof.
  intros Hs%Request_sends_iff. split.
  - apply build_request_inv in Hs as (req0 & [_ Hb]%NewRequest_inv & -> & _).
    done.
  - intros vals. apply Request_sends_iff. rewrite <- Hs. reflexivity.
Qed.

Lemma C9_body_empty_witness :
  sends (@strava_Request demo_ok MethodPost demo_token_uri demo_json_params)
    demo_world demo_json_request ∧
  Req_Body demo_json_request = None ∧
  ∀ vals, sends (@strava_Request demo_ok MethodPost demo_token_uri
                   (with_Values vals demo_json_params))
            demo_world demo_json_request.
Proof.
  assert (Hs : sends (@strava_Request demo_ok MethodPost demo_token_uri
                        demo_json_params) demo_world demo_json_request)
    by (vm_compute; reflexivity).
  split; [exact Hs|].
  exact (@C9_body_empty demo_ok MethodPost demo_token_uri demo_json_params
           demo_world demo_json_request Hs).
Defined.

(** C2. Whenever the request [Request] built reaches the transport and the
    transport hands back a response with status 401, [Request] returns the
    sentinel [AuthorizationError] as its error together with that very
    response, whatever the method, the endpoint and the parameters (and
    whatever error value the transport returned beside the response). *)
Theorem C2_unauthorized `{Platform} (method uri : string) (p : RequestParams)
    (w : world) (req : http_Request) (resp : http_Response)
    (err : option error) :
  sends (strava_Request method uri p) w req →
  Client_Do (Client (self w)) (sent w) req = (Some resp, err) →
  StatusCode resp = StatusUnauthorized →
  strava_Request method uri p w =
    Returns (Some resp, Some AuthorizationError) (after_send req w).
Proof.
  intros Hb%Request_sends_iff Hdo Hst. rewrite Request_unfold, Hb. simpl. rewrite Hdo. simpl.
  destruct (decide _); done.
Qed.

Lemma C2_unauthorized_witness :
  sends (strava_Request (H := demo_unauthorized) MethodPost demo_token_uri
           demo_json_params) demo_world demo_json_request ∧
  strava_Request (H := demo_unauthorized) MethodPost demo_token_uri
    demo_json_params demo_world =
  Returns (Some demo_401_response, Some AuthorizationError)
    (after_send demo_json_request demo_world).
Proof.
  assert (Hs : sends (strava_Request (H := demo_unauthorized) MethodPost
                        demo_token_uri demo_json_params)
                 demo_world demo_json_request)
    by (vm_compute; reflexivity).
  split; [exact Hs|].
  apply (@C2_unauthorized demo_unauthorized MethodPost demo_token_uri
           demo_json_params demo_world demo_json_request demo_401_response None);
    vm_compute; reflexivity.
Defined.

(** C3. When the transport fails, that is when [Do] returns a nil response
    beside its error, [Request] does not return that error to its caller:
    the request has gone out once, and reading the status of the nil
    response panics. *)
Theorem C3_transport_failure_panics `{Platform} (method uri : string)
    (p : RequestParams) (w : world) (req : http_Request) (err : option error) :
  sends (strava_Request method uri p) w req →
  Client_Do (Client (self w)) (sent w) req = (None, err) →
  strava_Request method uri p w = Panics (after_send req w).
Proof.
  intros Hb%Request_sends_iff Hdo. rewrite Request_unfold, Hb. simpl. by rewrite Hdo.
Qed.

Lemma C3_transport_failure_panics_witness :
  sends (strava_Request (H := demo_refused) MethodPost demo_token_uri
           demo_json_params) demo_world demo_json_request ∧
  Client_Do (Platform := demo_refused) (Client demo_strava) [] demo_json_request
    = (None, Some demo_dial_error) ∧
  strava_Request (H := demo_refused) MethodPost demo_token_uri
    demo_json_params demo_world =
  Panics (after_send demo_json_request demo_world).
Proof.
  assert (Hs : sends (strava_Request (H := demo_refused) MethodPost
                        demo_token_uri demo_json_params)
                 demo_world demo_json_request)
    by (vm_compute; reflexivity).
  split; [exact Hs|]. split; [reflexivity|].
  apply (@C3_transport_failure_panics demo_refused MethodPost demo_token_uri
           demo_json_params demo_world demo_json_request (Some demo_dial_error));
    vm_compute; reflexivity.
Defined.

(** C4. For every token and every grant other than "authorization_code"
    and "refresh_token", [AuthorizationAccessToken] returns the zero
    AccessToken and the error "grant_type `<grant>` not supported", whose
    message contains the grant; it hands nothing to the transport and
    leaves the world (client state, wire log, closed bodies) as it was. *)
Theorem C4_unsupported_grant `{Platform} (tok grant : string) (w : world) :
  grant ≠ GrantAuthorizationCode →
  grant ≠ GrantRefreshToken →
  ∃ msg,
    strava_AuthorizationAccessToken tok grant w =
      Returns (AccessToken_zero, Some (Errorf msg)) w ∧
    msg = "grant_type `" +:+ grant +:+ "` not supported" ∧
    occurs_in grant (error_Error (Errorf msg)) ∧
    sends_nothing (strava_AuthorizationAccessToken tok grant) w.
Proof.
  intros Hc Hr. eexists.
  assert (Hrun : strava_AuthorizationAccessToken tok grant w =
            Returns (AccessToken_zero,
                     Some (Errorf ("grant_type `" +:+ grant +:+ "` not supported"))) w).
  { unfold strava_AuthorizationAccessToken, grant_queries, bind, get_self, ret.
    rewrite !decide_False by done. reflexivity. }
  split; [exact Hrun|]. split; [reflexivity|]. split.
  - exists "grant_type `", "` not supported". reflexivity.
  - unfold sends_nothing. by rewrite Hrun.
Qed.

Lemma C4_unsupported_grant_witness :
  ∃ msg,
    strava_AuthorizationAccessToken (H := demo_ok) "tok" "bogus_grant" demo_world =
      Returns (AccessToken_zero, Some (Errorf msg)) demo_world ∧
    msg = "grant_type `bogus_grant` not supported" ∧
    occurs_in "bogus_grant" (error_Error (Errorf msg)) ∧
    sends_nothing (strava_AuthorizationAccessToken (H := demo_ok) "tok" "bogus_grant")
      demo_world.
Proof.
  apply (@C4_unsupported_grant demo_ok "tok" "bogus_grant" demo_world);
    vm_compute; discriminate.
Defined.

(** C7. [Queries] returns a mapping that holds exactly the non-zero fields:
    "after" and "before" are present exactly when the date is not zero,
    with its unix timestamp as value; "page" and "per_page" are present
    exactly when the number is positive, with the number as value; no other
    key is present. The zero request gives the empty mapping, and the
    request with only Page set to 2 gives the mapping with the single entry
    page = 2. *)
Theorem C7_Queries_nonzero_fields `{DateAPI Date} (p : ActivitiesRequest) :
  let m := ActivitiesRequest_Queries p in
  m !! "after" = (if Date_IsZero (After p) then None
                  else Some (VInt64 (Date_Unix (After p)))) ∧
  m !! "before" = (if Date_IsZero (Before p) then None
                   else Some (VInt64 (Date_Unix (Before p)))) ∧
  m !! "page" = (if decide (Page p = 0%N) then None
                 else Some (VUint64 (Page p))) ∧
  m !! "per_page" = (if decide (PerPage p = 0%N) then None
                     else Some (VUint64 (PerPage p))) ∧
  (∀ k, k ∉ ["after"; "before"; "page"; "per_page"] → m !! k = None) ∧
  ActivitiesRequest_Queries ActivitiesRequest_zero = ∅ ∧
  ActivitiesRequest_Queries
    {| Before := Date_zero; After := Date_zero; Page := 2; PerPage := 0 |}
    = {[ "page" := VUint64 2 ]}.
Proof.
  assert (Hpos : ∀ n : N, (0 <? n)%N = if decide (n = 0%N) then false else true).
  { intros n. destruct (decide _) as [->|Hn]; [done|].
    apply N.ltb_lt. lia. }
  assert (Hother : ∀ k, k ∉ ["after"; "before"; "page"; "per_page"] →
            k ≠ "after" ∧ k ≠ "before" ∧ k ≠ "page" ∧ k ≠ "per_page").
  { intros k Hk. repeat split; intros ->; apply Hk; repeat constructor. }
  simpl. unfold ActivitiesRequest_Queries, Map_Set. rewrite !Hpos.
  split; [|split; [|split; [|split; [|split]]]].
  1-4: destruct (Date_IsZero (After p)), (Date_IsZero (Before p)),
         (decide (Page p = 0%N)), (decide (PerPage p = 0%N)); simpl;
       by simplify_map_eq.
  - intros k (? & ? & ? & ?)%Hother.
    destruct (Date_IsZero (After p)), (Date_IsZero (Before p)),
      (decide (Page p = 0%N)), (decide (PerPage p = 0%N)); simpl;
      by simplify_map_eq.
  - simpl. rewrite Date_zero_IsZero. split; reflexivity.
Qed.

(** [Queries] on dates kept the way [time.Time] keeps them: everything set,
    and only the page set. *)
Example Queries_all_fields :
  ActivitiesRequest_Queries
    {| Before := {| td_sec := 63745056000; td_nsec := 0 |};
       After := {| td_sec := 63713433600; td_nsec := 0 |};
       Page := 3; PerPage := 50 |}
  = {[ "after" := VInt64 1577836800; "before" := VInt64 1609459200;
       "page" := VUint64 3; "per_page" := VUint64 50 ]}.
Proof. vm_compute. reflexivity. Qed.

Example Queries_page_only :
  ActivitiesRequest_Queries (Date := TimeDate)
    {| Before := Date_zero; After := Date_zero; Page := 2; PerPage := 0 |}
  = {[ "page" := VUint64 2 ]}.
Proof. vm_compute. reflexivity. Qed.

Section activity_facts.
Context `{Platform}.

Lemma GET_unfold (endpoint : string) (p : RequestParams) (w : world) :
  strava_GET endpoint p w =
  strava_Request MethodGet (Host (cfg (self w)) +:+ endpoint) p w.
Proof. reflexivity. Qed.

(** [Activity], run step by step. *)
Lemma Activity_unfold (id : N) (w : world) :
  strava_Activity id w =
  match strava_GET ("/activities/" +:+ format_uint id) bearer_params w with
  | Panics w' => Panics w'
  | Returns (r, Some e) w' =>
      Returns (Activity_zero, Some e) (final_world (closeHTTPResponse r w'))
  | Returns (None, None) w' => Panics w'
  | Returns (Some resp, None) w' =>
      Returns (if decide (StatusCode resp = StatusOK)
               then json_Unmarshal_Activity (Resp_Body resp) Activity_zero
               else (Activity_zero, None))
              (after_close resp w')
  end.
Proof.
  unfold strava_Activity, bind. fold bearer_params.
  destruct (strava_GET _ _ _) as [[r err] w'|w']; [|done].
  unfold deferring, closeHTTPResponse, ret, panic. simpl.
  destruct err as [e|]; [by destruct r|].
  destruct r as [resp|]; [|done].
  by destruct (decide _).
Qed.

Lemma Activity_sends (id : N) (w : world) (req : http_Request) :
  sends (strava_Activity id) w req →
  sends (strava_Request MethodGet
           (Host (cfg (self w)) +:+ "/activities/" +:+ format_uint id)
           bearer_params) w req.
Proof.
  unfold sends. rewrite Activity_unfold, GET_unfold.
  by destruct (strava_Request _ _ _ _) as [[[resp|] [e|]] w'|w'].
Qed.
End activity_facts.

(** C8. When [Activity(id)] sends its GET request and the transport answers
    it, without error, by a response whose status is neither 401 nor 200,
    [Activity] returns the zero Activity and the nil error; when the status
    is 200 it returns what the JSON decoder makes of the response body
    (the decoded Activity, with the decoder's error if it had one). In both
    cases the response body is closed. *)
Theorem C8_Activity_status `{Platform} (id : N) (w : world)
    (req : http_Request) (resp : http_Response) :
  sends (strava_Activity id) w req →
  Client_Do (Client (self w)) (sent w) req = (Some resp, None) →
  (StatusCode resp ≠ StatusOK → StatusCode resp ≠ StatusUnauthorized →
     strava_Activity id w =
       Returns (Activity_zero, None) (after_close resp (after_send req w))) ∧
  (StatusCode resp = StatusOK →
     strava_Activity id w =
       Returns (json_Unmarshal_Activity (Resp_Body resp) Activity_zero)
               (after_close resp (after_send req w))).
Proof.
  intros Hs%Activity_sends%Request_sends_iff Hdo.
  rewrite Activity_unfold, GET_unfold, Request_unfold, Hs. simpl.
  rewrite Hdo. simpl. split.
  - intros Hok Hun. rewrite !decide_False by done. reflexivity.
  - intros Hok. rewrite decide_False by (rewrite Hok; done).
    rewrite decide_True by done. reflexivity.
Qed.

Lemma C8_Activity_status_witness :
  sends (@strava_Activity demo_not_found 42) demo_world demo_activity_request ∧
  (StatusCode demo_404_response ≠ StatusOK →
   StatusCode demo_404_response ≠ StatusUnauthorized →
     @strava_Activity demo_not_found 42 demo_world =
       Returns (Activity_zero, None)
         (after_close demo_404_response
            (after_send demo_activity_request demo_world))) ∧
  (StatusCode demo_404_response = StatusOK →
     @strava_Activity demo_not_found 42 demo_world =
       Returns (json_Unmarshal_Activity (Platform := demo_not_found)
                  (Resp_Body demo_404_response) Activity_zero)
         (after_close demo_404_response
            (after_send demo_activity_request demo_world))).
Proof.
  assert (Hs : sends (@strava_Activity demo_not_found 42) demo_world
                 demo_activity_request) by (vm_compute; reflexivity).
  split; [exact Hs|].
  apply (@C8_Activity_status demo_not_found 42 demo_world
           demo_activity_request demo_404_response Hs).
  vm_compute; reflexivity.
Defined.

Section userID_facts.
Context `{Platform}.

Lemma differ_only_with_userID (w1 w2 : world) :
  differ_only_in_userID w1 w2 →
  w2 = with_userID (userID (self w2)) w1.
Proof.
  destruct w1 as [[c1 g1 a1 u1] s1 l1], w2 as [[c2 g2 a2 u2] s2 l2].
  unfold differ_only_in_userID, strava_differ_only_in_userID, with_userID.
  simpl. intros ((-> & -> & ->) & -> & ->). reflexivity.
Qed.

Lemma with_userID_differs (id : N) (w : world) :
  differ_only_in_userID w (with_userID id w).
Proof. by repeat split. Qed.

Lemma ignores_agree {A} (c : M A) (w1 w2 : world) :
  ignores_userID c → differ_only_in_userID w1 w2 → agree (c w1) (c w2).
Proof.
  intros Hc Hw. rewrite (differ_only_with_userID _ _ Hw), Hc.
  destruct (c w1); simpl; auto using with_userID_differs.
Qed.

Lemma ignores_ret {A} (a : A) : ignores_userID (ret a).
Proof. by intros id w. Qed.

Lemma ignores_panic {A} : ignores_userID (@panic A).
Proof. by intros id w. Qed.

Lemma ignores_bind {A B} (c : M A) (k : A → M B) :
  ignores_userID c → (∀ a, ignores_userID (k a)) → ignores_userID (bind c k).
Proof.
  intros Hc Hk id w. unfold bind. rewrite Hc.
  destruct (c w) as [a w'|w']; simpl; [apply Hk | done].
Qed.

Lemma ignores_close (r : option http_Response) :
  ignores_userID (closeHTTPResponse r).
Proof. intros id w. by destruct r. Qed.

Lemma ignores_deferring {A} (d : M unit) (body : M A) :
  ignores_userID d → ignores_userID body → ignores_userID (deferring d body).
Proof.
  intros Hd Hb id w. unfold deferring. rewrite Hb.
  destruct (body w) as [a w'|w']; simpl; rewrite Hd; by destruct (d w').
Qed.

Lemma build_request_userID (s : strava) (id : N) (method uri : string)
    (p : RequestParams) :
  build_request {| Client := Client s; cfg := cfg s;
                   accessToken := accessToken s; userID := id |} method uri p
  = build_request s method uri p.
Proof. reflexivity. Qed.

Lemma ignores_Request (method uri : string) (p : RequestParams) :
  ignores_userID (strava_Request method uri p).
Proof.
  intros id w. rewrite !Request_unfold. simpl.
  rewrite build_request_userID.
  destruct (build_request _ _ _ _) as [req|e]; [|done]. simpl.
  destruct (Client_Do _ _ _) as [[resp|] err]; simpl; [|done].
  by destruct (decide _).
Qed.

Lemma ignores_GET (endpoint : string) (p : RequestParams) :
  ignores_userID (strava_GET endpoint p).
Proof. intros id w. rewrite !GET_unfold. apply ignores_Request. Qed.

Lemma ignores_POST (endpoint : string) (p : RequestParams) :
  ignores_userID (strava_POST endpoint p).
Proof. intros id w. apply (ignores_Request MethodPost). Qed.

Lemma ignores_Activity (id : N) : ignores_userID (strava_Activity id).
Proof.
  apply ignores_bind; [apply ignores_GET|]. intros [r err].
  apply ignores_deferring; [apply ignores_close|]. simpl.
  destruct err; [apply ignores_ret|].
  destruct r; [|apply ignores_panic].
  destruct (decide _); apply ignores_ret.
Qed.

Lemma ignores_Activities `{DateAPI Date} (p : ActivitiesRequest) :
  ignores_userID (strava_Activities p).
Proof.
  apply ignores_bind; [apply ignores_GET|]. intros [r err].
  apply ignores_deferring; [apply ignores_close|]. simpl.
  destruct err; [apply ignores_ret|].
  destruct r; [|apply ignores_panic].
  destruct (decide _); apply ignores_ret.
Qed.

Lemma ignores_AuthorizationAccessToken (tok grant : string) :
  ignores_userID (strava_AuthorizationAccessToken tok grant).
Proof.
  intros id w. unfold strava_AuthorizationAccessToken, bind at 1 3, get_self.
  simpl. destruct (grant_queries _ _ _) as [queries|]; [|done].
  revert id w. apply ignores_bind; [apply ignores_Request|]. intros [r err].
  apply ignores_deferring; [apply ignores_close|]. simpl.
  destruct err; [apply ignores_ret|].
  destruct r; [apply ignores_ret|apply ignores_panic].
Qed.

Lemma ignores_AuthorizationURL (state : string) :
  ignores_userID (strava_AuthorizationURL state).
Proof. by intros id w. Qed.
End userID_facts.

(** C10. [userID] is observable by no operation. From two worlds that
    differ only in the client's [userID], each of [Request], [Activity],
    [Activities], [AuthorizationAccessToken] and [AuthorizationURL] ends
    the same way (return or panic) with the same result, the same requests
    on the wire and the same bodies closed, under the same transport; and
    [SetUserID] changes nothing but [userID]. *)
Theorem C10_userID_unobservable `{Platform} `{DateAPI Date} (w1 w2 : world) :
  differ_only_in_userID w1 w2 →
  (∀ method uri p,
     agree (strava_Request method uri p w1) (strava_Request method uri p w2)) ∧
  (∀ id, agree (strava_Activity id w1) (strava_Activity id w2)) ∧
  (∀ p, agree (strava_Activities p w1) (strava_Activities p w2)) ∧
  (∀ tok grant,
     agree (strava_AuthorizationAccessToken tok grant w1)
           (strava_AuthorizationAccessToken tok grant w2)) ∧
  (∀ state,
     agree (strava_AuthorizationURL state w1) (strava_AuthorizationURL state w2)) ∧
  (∀ id, strava_SetUserID id w1 = Returns tt (with_userID id w1) ∧
         differ_only_in_userID w1 (with_userID id w1)).
Proof.
  intros Hw.
  split; [intros; apply ignores_agree, Hw; apply ignores_Request|].
  split; [intros; apply ignores_agree, Hw; apply ignores_Activity|].
  split; [intros; apply ignores_agree, Hw; apply ignores_Activities|].
  split; [intros; apply ignores_agree, Hw;
          apply ignores_AuthorizationAccessToken|].
  split; [intros; apply ignores_agree, Hw; apply ignores_AuthorizationURL|].
  intros id. split; [reflexivity | apply with_userID_differs].
Qed.

Lemma C10_userID_unobservable_witness :
  differ_only_in_userID demo_world demo_world_user7 ∧
  (∀ method uri p,
     agree (strava_Request (H := demo_ok) method uri p demo_world)
           (strava_Request (H := demo_ok) method uri p demo_world_user7)) ∧
  (∀ id, agree (strava_Activity (H := demo_ok) id demo_world)
               (strava_Activity (H := demo_ok) id demo_world_user7)) ∧
  (∀ p : ActivitiesRequest (Date := TimeDate),
     agree (strava_Activities (H := demo_ok) p demo_world)
           (strava_Activities (H := demo_ok) p demo_world_user7)) ∧
  (∀ tok grant,
     agree (strava_AuthorizationAccessToken (H := demo_ok) tok grant demo_world)
           (strava_AuthorizationAccessToken (H := demo_ok) tok grant
              demo_world_user7)) ∧
  (∀ state,
     agree (strava_AuthorizationURL state demo_world)
           (strava_AuthorizationURL state demo_world_user7)) ∧
  (∀ id, strava_SetUserID id demo_world = Returns tt (with_userID id demo_world) ∧
         differ_only_in_userID demo_world (with_userID id demo_world)).
Proof.
  assert (Hw : differ_only_in_userID demo_world demo_world_user7)
    by (vm_compute; repeat split; reflexivity).
  split; [exact Hw|].
  exact (@C10_userID_unobservable demo_ok TimeDate TimeDate_API
           demo_world demo_world_user7 Hw).
Defined.

(** ** The query string *)

Section query_strings.

Lemma append_cons (x : ascii) (a b : string) :
  String x a +:+ b = String x (a +:+ b).
Proof. reflexivity. Qed.

Lemma append_nil_r (a : string) : a +:+ "" = a.
Proof. induction a as [|x a IH]; [done|]. by rewrite append_cons, IH. Qed.

Lemma append_assoc (a b c : string) : (a +:+ b) +:+ c = a +:+ (b +:+ c).
Proof. induction a as [|x a IH]; [done|]. by rewrite !append_cons, IH. Qed.

Lemma append_length (a b : string) :
  String.length (a +:+ b) = (String.length a + String.length b)%nat.
Proof.
  induction a as [|x a IH]; [done|]. rewrite append_cons. simpl. by rewrite IH.
Qed.

Lemma Contains_append (c : ascii) (a b : string) :
  strings_ContainsByte c (a +:+ b) =
  strings_ContainsByte c a || strings_ContainsByte c b.
Proof.
  induction a as [|x a IH]; [done|].
  rewrite append_cons. simpl. by rewrite IH, orb_assoc.
Qed.

Lemma Cut_found (sep : ascii) (a b : string) :
  strings_ContainsByte sep a = false →
  strings_Cut sep (a +:+ String sep b) = (a, b, true).
Proof.
  induction a as [|x a IH].
  - intros _. change ("" +:+ String sep b) with (String sep b). simpl.
    by rewrite decide_True.
  - rewrite append_cons. simpl.
    intros [Hx Ha]%orb_false_elim. apply bool_decide_eq_false in Hx.
    rewrite decide_False by done. by rewrite IH.
Qed.

Lemma Cut_not_found (sep : ascii) (a : string) :
  strings_ContainsByte sep a = false →
  strings_Cut sep a = (a, "", false).
Proof.
  induction a as [|x a IH]; simpl; [done|].
  intros [Hx Ha]%orb_false_elim. apply bool_decide_eq_false in Hx.
  rewrite decide_False by done. by rewrite IH.
Qed.

Lemma escape_byte_cases (c : ascii) (s : string) :
  QueryEscape (String c s) =
  if decide (c = " "%char) then String "+" (QueryEscape s)
  else if shouldEscape c then
    String "%" (String (upperhex (N_of_ascii c / 16))
                  (String (upperhex (N_of_ascii c mod 16)) (QueryEscape s)))
  else String c (QueryEscape s).
Proof. reflexivity. Qed.

Lemma unescape_escape_byte (c : ascii) (s : string) :
  QueryUnescape (QueryEscape (String c s)) =
  option_map (String c) (QueryUnescape (QueryEscape s)).
Proof.
  rewrite escape_byte_cases. generalize (QueryEscape s). intros t.
  each_byte c; reflexivity.
Qed.

(** Unescaping undoes escaping. *)
Lemma QueryUnescape_QueryEscape (s : string) :
  QueryUnescape (QueryEscape s) = Some s.
Proof.
  induction s as [|c s IH]; [done|].
  by rewrite unescape_escape_byte, IH.
Qed.

Lemma escape_byte_no_separator (sep c : ascii) (s : string) :
  is_separator sep →
  strings_ContainsByte sep (QueryEscape (String c s)) =
  strings_ContainsByte sep (QueryEscape s).
Proof.
  rewrite escape_byte_cases. generalize (QueryEscape s). intros t.
  intros [->|[->| ->]]; each_byte c; reflexivity.
Qed.

(** An escaped component holds none of the bytes that structure a query. *)
Lemma QueryEscape_no_separator (sep : ascii) (s : string) :
  is_separator sep →
  strings_ContainsByte sep (QueryEscape s) = false.
Proof.
  intros Hsep. induction s as [|c s IH]; [done|].
  by rewrite escape_byte_no_separator.
Qed.

Lemma segment_no_byte (sep : ascii) (kv : string * string) :
  sep = "&"%char ∨ sep = ";"%char →
  strings_ContainsByte sep (pair_segment kv) = false.
Proof.
  intros Hsep. unfold pair_segment. rewrite !Contains_append.
  rewrite !QueryEscape_no_separator by (unfold is_separator; tauto).
  by destruct Hsep as [-> | ->].
Qed.

Lemma segment_nonempty (kv : string * string) : pair_segment kv ≠ "".
Proof.
  unfold pair_segment. destruct (QueryEscape kv.1); discriminate.
Qed.

Lemma segment_Cut (kv : string * string) :
  strings_Cut "=" (pair_segment kv) = (QueryEscape kv.1, QueryEscape kv.2, true).
Proof.
  apply (Cut_found "="), QueryEscape_no_separator.
  unfold is_separator; tauto.
Qed.

Lemma parseQuery_empty (fuel : nat) (m : gmap string (list string))
    (err : option error) :
  parseQuery fuel m err "" = (m, err).
Proof. by destruct fuel. Qed.

(** One round of the loop on a query that starts with a written pair. *)
Lemma parseQuery_segment (fuel : nat) (m : gmap string (list string))
    (err : option error) (kv : string * string) (rest : string) (more : bool) :
  strings_Cut "&" (pair_segment kv +:+ (if more then "&" +:+ rest else ""))
    = (pair_segment kv, (if more then rest else ""), more) ∧
  parseQuery (S fuel) m err
    (pair_segment kv +:+ (if more then "&" +:+ rest else "")) =
  parseQuery fuel (add_pair m kv) err (if more then rest else "").
Proof.
  assert (Hcut : strings_Cut "&"
            (pair_segment kv +:+ (if more then "&" +:+ rest else ""))
          = (pair_segment kv, (if more then rest else ""), more)).
  { destruct more.
    - apply Cut_found, segment_no_byte. tauto.
    - rewrite append_nil_r.
      apply Cut_not_found, segment_no_byte. tauto. }
  split; [done|]. simpl.
  rewrite decide_False.
  2:{ pose proof (segment_nonempty kv). destruct (pair_segment kv); done. }
  rewrite Hcut. rewrite segment_no_byte by tauto.
  rewrite decide_False by apply segment_nonempty.
  rewrite segment_Cut, !QueryUnescape_QueryEscape. reflexivity.
Qed.

(** Parsing a joined list of written pairs appends them one by one. *)
Lemma parseQuery_Join (kvs : list (string * string)) (fuel : nat)
    (m : gmap string (list string)) (err : option error) :
  (String.length (strings_Join "&" (fmap pair_segment kvs)) ≤ fuel)%nat →
  parseQuery fuel m err (strings_Join "&" (fmap pair_segment kvs)) =
  (fold_left add_pair kvs m, err).
Proof.
  revert fuel m. induction kvs as [|kv [|kv' kvs] IH]; intros fuel m Hlen.
  - apply parseQuery_empty.
  - simpl in *. destruct fuel as [|fuel].
    { pose proof (segment_nonempty kv). destruct (pair_segment kv); simpl in *; [done|lia]. }
    destruct (parseQuery_segment fuel m err kv "" false) as [_ Hstep].
    rewrite append_nil_r in Hstep. rewrite Hstep. apply parseQuery_empty.
  - change (strings_Join "&" (fmap pair_segment (kv :: kv' :: kvs)))
      with (pair_segment kv +:+ "&" +:+
            strings_Join "&" (fmap pair_segment (kv' :: kvs))) in *.
    remember (strings_Join "&" (fmap pair_segment (kv' :: kvs))) as rest.
    rewrite !append_length in Hlen.
    change (String.length "&") with 1%nat in Hlen.
    destruct fuel as [|fuel]; [lia|].
    destruct (parseQuery_segment fuel m err kv rest true) as [_ Hstep].
    rewrite Hstep. rewrite IH by lia. reflexivity.
Qed.


Lemma write_segments_cons (buf seg : string) (segs : list string) :
  write_segments buf (seg :: segs) =
  write_segments
    ((if (0 <? String.length buf)%nat then buf +:+ "&" else buf) +:+ seg) segs.
Proof. reflexivity. Qed.

Lemma write_segments_nonempty (buf : string) (segs : list string) :
  buf ≠ "" →
  write_segments buf segs =
  buf +:+ (match segs with [] => "" | _ => "&" +:+ strings_Join "&" segs end).
Proof.
  revert buf. induction segs as [|seg segs IH]; intros buf Hbuf.
  - by rewrite append_nil_r.
  - rewrite write_segments_cons.
    destruct buf as [|c buf]; [done|].
    change (0 <? String.length (String c buf))%nat with true. cbv iota.
    rewrite IH by (rewrite append_cons; discriminate).
    rewrite !append_assoc. do 2 f_equal.
    destruct segs as [|seg' segs]; [by rewrite append_nil_r | done].
Qed.

(** Writing into an empty buffer joins the pieces with [&]. *)
Lemma write_segments_Join (segs : list string) :
  Forall (λ seg, seg ≠ "") segs →
  write_segments "" segs = strings_Join "&" segs.
Proof.
  destruct segs as [|seg segs]; [done|].
  intros Hne. apply Forall_cons in Hne as [Hseg _].
  rewrite write_segments_cons. change ("" +:+ seg) with seg.
  rewrite write_segments_nonempty by done.
  destruct segs; [by rewrite append_nil_r | done].
Qed.

Lemma Encode_key_segments (v : gmap string (list string)) (buf k : string) :
  Encode_key v buf k =
  write_segments buf
    (fmap pair_segment ((λ val, (k, val)) <$> default [] (v !! k))).
Proof.
  unfold Encode_key, write_segments. generalize (default [] (v !! k)).
  intros vs. revert buf. induction vs as [|val vs IH]; intros buf; [done|].
  simpl. rewrite IH. reflexivity.
Qed.

Lemma Encode_keys_segments (v : gmap string (list string)) (ks : list string)
    (buf : string) :
  fold_left (Encode_key v) ks buf =
  write_segments buf
    (fmap pair_segment
       (flat_map (λ k, (λ val, (k, val)) <$> default [] (v !! k)) ks)).
Proof.
  revert buf. induction ks as [|k ks IH]; intros buf; [done|].
  simpl. rewrite IH, Encode_key_segments.
  unfold write_segments. by rewrite fmap_app, fold_left_app.
Qed.

(** [Encode] writes the pairs of [Values_pairs], joined with [&]. *)
Lemma Values_Encode_Join (v : gmap string (list string)) :
  Values_Encode v = strings_Join "&" (fmap pair_segment (Values_pairs v)).
Proof.
  unfold Values_Encode. destruct (decide (size v = 0%nat)) as [Hz|Hnz].
  - apply map_size_empty_inv in Hz as ->.
    unfold Values_pairs, sorted_keys. by rewrite map_to_list_empty.
  - rewrite Encode_keys_segments. apply write_segments_Join.
    induction (Values_pairs v) as [|kv kvs IH]; constructor;
      [apply segment_nonempty | exact IH].
Qed.

Lemma fold_add_pair_key (k : string) (vs : list string)
    (m : gmap string (list string)) :
  fold_left add_pair ((λ val, (k, val)) <$> vs) m =
  match vs with
  | [] => m
  | _ => <[k := default [] (m !! k) ++ vs]> m
  end.
Proof.
  revert m. induction vs as [|val vs IH]; intros m; [done|].
  rewrite fmap_cons. cbn [fold_left]. rewrite IH.
  destruct vs as [|val' vs]; [done|].
  unfold add_pair. simpl. rewrite lookup_insert_eq, insert_insert_eq. simpl.
  by rewrite <- app_assoc.
Qed.

(** The pairs written for a list of distinct keys, read back one by one,
    rebuild the entries of those keys that have a value. *)
Lemma fold_add_pair_keys (v : gmap string (list string)) (ks : list string)
    (m : gmap string (list string)) (k : string) :
  NoDup ks →
  (∀ k', k' ∈ ks → m !! k' = None) →
  fold_left add_pair
    (flat_map (λ k, (λ val, (k, val)) <$> default [] (v !! k)) ks) m !! k =
  if decide (k ∈ ks)
  then match v !! k with
       | Some (val :: vs) => Some (val :: vs)
       | _ => None
       end
  else m !! k.
Proof.
  revert m. induction ks as [|k0 ks IH]; intros m Hnd Hfresh.
  - destruct (decide (k ∈ [])) as [Hin|]; [by apply elem_of_nil in Hin | done].
  - apply NoDup_cons in Hnd as [Hk0 Hnd].
    cbn [flat_map]. rewrite fold_left_app, fold_add_pair_key.
    rewrite (Hfresh k0) by apply list_elem_of_here. simpl.
    rewrite IH; [|done|].
    + destruct (decide (k ∈ ks)) as [Hin|Hnin].
      * rewrite decide_True by (by apply list_elem_of_further). done.
      * destruct (decide (k = k0)) as [->|Hne].
        -- rewrite decide_True by apply list_elem_of_here.
           destruct (v !! k0) as [[|val vs]|]; simpl;
             rewrite ?lookup_insert_eq; try done;
             apply Hfresh, list_elem_of_here.
        -- rewrite decide_False by (intros [?|?]%elem_of_cons; done).
           destruct (default [] (v !! k0)); [done|].
           by rewrite lookup_insert_ne.
    + intros k' Hk'. assert (k' ≠ k0) by (intros ->; done).
      destruct (default [] (v !! k0)); [|rewrite lookup_insert_ne by done];
        by apply Hfresh, list_elem_of_further.
Qed.

Lemma sorted_keys_NoDup (v : gmap string (list string)) : NoDup (sorted_keys v).
Proof.
  unfold sorted_keys. rewrite merge_sort_Permutation.
  apply NoDup_fst_map_to_list.
Qed.

Lemma sorted_keys_elem_of (v : gmap string (list string)) (k : string) :
  k ∈ sorted_keys v ↔ is_Some (v !! k).
Proof.
  unfold sorted_keys. rewrite merge_sort_Permutation.
  rewrite list_elem_of_fmap. split.
  - intros [[k' vs] [-> Hin%elem_of_map_to_list]]. by exists vs.
  - intros [vs Hvs]. exists (k, vs). by rewrite elem_of_map_to_list.
Qed.

(** Reading the written pairs back gives the values again, as long as no
    key is bound to the empty list (such a key is written as nothing). *)
Lemma fold_add_pair_Values_pairs (v : gmap string (list string)) :
  (∀ k, v !! k ≠ Some []) →
  fold_left add_pair (Values_pairs v) ∅ = v.
Proof.
  intros Hne. apply map_eq. intros k. unfold Values_pairs.
  rewrite fold_add_pair_keys; [|apply sorted_keys_NoDup|by intros; apply lookup_empty].
  destruct (decide (k ∈ sorted_keys v)) as [Hin|Hnin].
  - specialize (Hne k). destruct (v !! k) as [[|val vs]|]; done.
  - rewrite lookup_empty. symmetry. apply eq_None_not_Some.
    by rewrite <- sorted_keys_elem_of.
Qed.

(** [ParseQuery] undoes [Encode]. *)
Lemma ParseQuery_Encode (v : gmap string (list string)) :
  (∀ k, v !! k ≠ Some []) →
  url_ParseQuery (Values_Encode v) = (v, None).
Proof.
  intros Hne. unfold url_ParseQuery.
  rewrite Values_Encode_Join, parseQuery_Join by done.
  by rewrite fold_add_pair_Values_pairs.
Qed.
End query_strings.

Lemma Join_occurs (sep seg : string) (segs : list string) :
  seg ∈ segs → occurs_in seg (strings_Join sep segs).
Proof.
  induction segs as [|x [|y segs] IH]; intros Hin.
  - by apply elem_of_nil in Hin.
  - apply list_elem_of_singleton in Hin as ->. exists "", "".
    by rewrite append_nil_r.
  - change (strings_Join sep (x :: y :: segs))
      with (x +:+ sep +:+ strings_Join sep (y :: segs)).
    apply elem_of_cons in Hin as [->|Hin].
    + by exists "", (sep +:+ strings_Join sep (y :: segs)).
    + destruct (IH Hin) as (pre & post & ->).
      exists (x +:+ sep +:+ pre), post. by rewrite !append_assoc.
Qed.

Lemma Values_pairs_elem_of (v : gmap string (list string)) (k val : string)
    (vs : list string) :
  v !! k = Some vs → val ∈ vs → (k, val) ∈ Values_pairs v.
Proof.
  intros Hk Hval. unfold Values_pairs. apply list_elem_of_In, in_flat_map.
  exists k. split.
  - apply list_elem_of_In, sorted_keys_elem_of. by exists vs.
  - rewrite Hk. simpl. apply list_elem_of_In, list_elem_of_fmap. by exists val.
Qed.

Section query_facts.
Context `{Platform}.

Lemma range_Queries_lookup (entries : list (string * value))
    (q : gmap string (list string)) (k : string) :
  NoDup entries.*1 →
  range_Queries entries q !! k =
  match (list_to_map entries : gmap string value) !! k with
  | Some v => Some [convert_String v]
  | None => q !! k
  end.
Proof.
  revert q. induction entries as [|[k0 v0] es IH]; intros q Hnd; [done|].
  rewrite fmap_cons in Hnd. apply NoDup_cons in Hnd as [Hk0 Hnd].
  unfold range_Queries in *. cbn [fold_left]. rewrite IH by done.
  unfold Values_Set. simpl.
  destruct (decide (k = k0)) as [->|Hne].
  - rewrite lookup_insert_eq.
    by rewrite (not_elem_of_list_to_map_1 _ _ Hk0), lookup_insert_eq.
  - by rewrite !lookup_insert_ne.
Qed.

(** In whatever order the loop visits the entries of [Queries], it leaves
    each key bound to the one-element list of its value's string form. *)
Lemma range_Queries_fmap (m : gmap string value)
    (order : list (string * value)) :
  order ≡ₚ map_to_list m →
  range_Queries order ∅ = (λ v, [convert_String v]) <$> m.
Proof.
  intros Hperm. apply map_eq. intros k.
  assert (Hnd : NoDup order.*1)
    by (rewrite Hperm; apply NoDup_fst_map_to_list).
  rewrite range_Queries_lookup by done.
  rewrite (list_to_map_proper _ _ Hnd Hperm), list_to_map_to_list.
  rewrite lookup_fmap, lookup_empty. by destruct (m !! k).
Qed.
End query_facts.

(** C6. For every Queries mapping and every method, the query string of
    the request [Request] sends, read back the way [url.ParseQuery] reads
    it, is exactly the mapping of each key of Queries to the string form
    of its value; so every entry of Queries is a key/value pair of the
    query string, and its escaped text key=value occurs in it. *)
Theorem C6_queries_in_url `{Platform} (method uri : string) (p : RequestParams)
    (w : world) (req : http_Request) (m : gmap string value) :
  sends (strava_Request method uri p) w req →
  Queries p = Some m →
  let raw := URL_RawQuery (Req_URL req) in
  url_ParseQuery raw = ((λ v, [convert_String v]) <$> m, None) ∧
  ∀ k v, m !! k = Some v →
    (url_ParseQuery raw).1 !! k = Some [convert_String v] ∧
    occurs_in (QueryEscape k +:+ "=" +:+ QueryEscape (convert_String v)) raw.
Proof.
  intros Hs%Request_sends_iff%build_request_inv Hq.
  destruct Hs as (req0 & _ & _ & _ & Hurl & _).
  rewrite Hurl, Hq. simpl. rewrite (range_Queries_fmap m) by done.
  assert (Hparse : url_ParseQuery
            (Values_Encode ((λ v, [convert_String v]) <$> m))
          = ((λ v, [convert_String v]) <$> m, None)).
  { apply ParseQuery_Encode. intros k. rewrite lookup_fmap.
    by destruct (m !! k). }
  split; [exact Hparse|]. intros k v Hk. rewrite Hparse. simpl. split.
  - by rewrite lookup_fmap, Hk.
  - rewrite Values_Encode_Join.
    apply (Join_occurs "&" (pair_segment (k, convert_String v))).
    apply list_elem_of_fmap. exists (k, convert_String v). split; [done|].
    apply (Values_pairs_elem_of _ _ _ [convert_String v]).
    + by rewrite lookup_fmap, Hk.
    + apply list_elem_of_here.
Qed.

Lemma C6_queries_in_url_witness :
  sends (@strava_Request demo_ok MethodGet demo_token_uri demo_query_params)
    demo_world demo_query_request ∧
  Queries demo_query_params = Some demo_query_map ∧
  URL_RawQuery (Req_URL demo_query_request) = "after=-5&page=2&q=run+%26+ride" ∧
  url_ParseQuery (URL_RawQuery (Req_URL demo_query_request)) =
    ((λ v, [plain_convert_String v]) <$> demo_query_map, None) ∧
  ∀ k v, demo_query_map !! k = Some v →
    (url_ParseQuery (URL_RawQuery (Req_URL demo_query_request))).1 !! k
      = Some [plain_convert_String v] ∧
    occurs_in (QueryEscape k +:+ "=" +:+ QueryEscape (plain_convert_String v))
      (URL_RawQuery (Req_URL demo_query_request)).
Proof.
  assert (Hs : sends (@strava_Request demo_ok MethodGet demo_token_uri
                        demo_query_params) demo_world demo_query_request)
    by (vm_compute; reflexivity).
  split; [exact Hs|]. split; [reflexivity|].
  split; [vm_compute; reflexivity|].
  exact (@C6_queries_in_url demo_ok MethodGet demo_token_uri demo_query_params
           demo_world demo_query_request demo_query_map Hs eq_refl).
Defined.

(** ** The model at work *)

(** The token the header carries is the one [SetAccessToken] stored last. *)
Lemma SetAccessToken_then_bearer `{Platform} (tok method uri : string)
    (p : RequestParams) (w : world) (req : http_Request) :
  WithBearer p = true →
  sends (strava_Request method uri p)
        (final_world (strava_SetAccessToken tok w)) req →
  Header_Get "Authorization" (Req_Header req) = "Bearer " +:+ tok.
Proof.
  intros Hb Hs%Request_sends_iff%build_request_inv.
  destruct Hs as (req0 & [Hh0 _]%NewRequest_inv & _ & _ & _ & Hh).
  rewrite Hh, Hh0, Hb. unfold Header_Get, Header_Set.
  by rewrite !lookup_insert_ne, lookup_insert_eq by done.
Qed.

(** A method that is not a token stops [Request] before anything is sent. *)
Example Request_invalid_method :
  strava_Request (H := demo_ok) "G T" demo_token_uri RequestParams_zero demo_world
  = Returns (None, Some (LibError "net/http" "net/http: invalid method G T"))
      demo_world.
Proof. vm_compute. reflexivity. Qed.

(** [Activity] on a 200 answer hands the body to the decoder and closes it. *)
Example Activity_200 :
  strava_Activity (H := demo_ok) 42 demo_world
  = Returns (Activity_zero, None)
      (after_close {| StatusCode := 200; Resp_Body := "{}" |}
         (after_send demo_activity_request demo_world)).
Proof. vm_compute. reflexivity. Qed.

(** [Activity] on a 401 answer reports the sentinel. *)
Example Activity_401 :
  strava_Activity (H := demo_unauthorized) 42 demo_world
  = Returns (Activity_zero, Some AuthorizationError)
      (after_close demo_401_response
         (after_send demo_activity_request demo_world)).
Proof. vm_compute. reflexivity. Qed.

(** A refused connection makes [Activity] panic too, through [Request]. *)
Example Activity_refused :
  strava_Activity (H := demo_refused) 42 demo_world
  = Panics (after_send demo_activity_request demo_world).
Proof. vm_compute. reflexivity. Qed.

(** The authorization URL embeds the client id, the scope and the state. *)
Example AuthorizationURL_demo :
  strava_AuthorizationURL "xyz" demo_world
  = Returns "https://www.strava.com/oauth/authorize?client_id=4711&response_type=code&redirect_uri=http://runjoy.kovacou.com&approval_prompt=force&scope=activity:read&state=xyz"
      demo_world.
Proof. vm_compute. reflexivity. Qed.

(** The token exchange sends client id, secret, code and grant type in the
    query string of a JSON-typed POST, without a bearer token. *)
Example AuthorizationAccessToken_demo :
  (λ r, (Req_Method r, URL_RawQuery (Req_URL r),
         Header_Get "Content-Type" (Req_Header r),
         Req_Header r !! "Authorization", Req_Body r))
    <$> last_sent (strava_AuthorizationAccessToken (H := demo_ok)
                     "c0de" GrantAuthorizationCode demo_world)
  = Some ("POST",
          "client_id=4711&client_secret=s3cr3t&code=c0de&grant_type=authorization_code",
          "application/json", None, None).
Proof. vm_compute. reflexivity. Qed.

(** * Further properties of the request builder *)

(** The request [Request] sends carries exactly these headers: Accept,
    Content-Type, and Authorization when WithBearer is set; each has a
    single value and there is no other header. *)
Theorem Request_headers_exact `{Platform} (method uri : string)
    (p : RequestParams) (w : world) (req : http_Request) :
  sends (strava_Request method uri p) w req →
  ∀ key, Req_Header req !! key =
         expected_header method p (accessToken (self w)) key.
Proof.
  intros Hs%Request_sends_iff%build_request_inv key.
  destruct Hs as (req0 & [Hh0 _]%NewRequest_inv & _ & _ & _ & Hh).
  rewrite Hh, Hh0. unfold expected_header, Header_Set.
  destruct (decide (key = "Accept")) as [->|Ha];
    [by rewrite lookup_insert_eq|].
  rewrite lookup_insert_ne by done.
  destruct (decide (key = "Content-Type")) as [->|Hc];
    [by rewrite lookup_insert_eq|].
  rewrite lookup_insert_ne by done.
  destruct (WithBearer p), (decide (key = "Authorization")) as [->|Hz];
    by rewrite ?lookup_insert_eq, ?lookup_insert_ne, ?lookup_empty by done.
Qed.

Lemma Request_headers_exact_witness :
  sends (@strava_Request demo_ok MethodPost demo_token_uri demo_json_params)
    demo_world demo_json_request ∧
  ∀ key, Req_Header demo_json_request !! key =
         expected_header MethodPost demo_json_params "tok123" key.
Proof.
  assert (Hs : sends (@strava_Request demo_ok MethodPost demo_token_uri
                        demo_json_params) demo_world demo_json_request)
    by (vm_compute; reflexivity).
  split; [exact Hs|].
  exact (@Request_headers_exact demo_ok MethodPost demo_token_uri
           demo_json_params demo_world demo_json_request Hs).
Defined.

(** When [http.NewRequest] refuses the method (a byte that is not a token
    character) or [url.Parse] refuses the uri, [Request] returns that error
    with a nil response, sends nothing and leaves the world as it was. *)
Theorem Request_construction_error `{Platform} (method uri : string)
    (p : RequestParams) (w : world) (e : error) :
  (validMethod (effective_method method) = false ∧
   e = invalid_method (effective_method method)) ∨
  (validMethod (effective_method method) = true ∧ url_Parse uri = inr e) →
  strava_Request method uri p w = Returns (None, Some e) w ∧
  sends_nothing (strava_Request method uri p) w.
Proof.
  intros Hcause.
  assert (Hb : build_request (self w) method uri p = inr e).
  { unfold build_request, http_NewRequest. fold (effective_method method).
    destruct Hcause as [[-> ->]|[-> Hp]]; simpl; [done|]. by rewrite Hp. }
  assert (Hrun : strava_Request method uri p w = Returns (None, Some e) w)
    by (by rewrite Request_unfold, Hb).
  split; [exact Hrun|]. unfold sends_nothing. by rewrite Hrun.
Qed.

Lemma Request_construction_error_witness :
  strava_Request (H := demo_ok) "G T" demo_token_uri demo_json_params demo_world
    = Returns (None, Some (LibError "net/http" "net/http: invalid method G T"))
        demo_world ∧
  sends_nothing (strava_Request (H := demo_ok) "G T" demo_token_uri
                   demo_json_params) demo_world.
Proof.
  apply (@Request_construction_error demo_ok "G T" demo_token_uri
           demo_json_params demo_world).
  left. split; vm_compute; reflexivity.
Defined.

(** A response whose status is not 401 comes back from [Request] exactly as
    the transport returned it, with the transport's error value beside it,
    after one request went out. *)
Theorem Request_passes_through `{Platform} (method uri : string)
    (p : RequestParams) (w : world) (req : http_Request)
    (resp : http_Response) (err : option error) :
  sends (strava_Request method uri p) w req →
  Client_Do (Client (self w)) (sent w) req = (Some resp, err) →
  StatusCode resp ≠ StatusUnauthorized →
  strava_Request method uri p w = Returns (Some resp, err) (after_send req w).
Proof.
  intros Hb%Request_sends_iff Hdo Hst. rewrite Request_unfold, Hb. simpl.
  rewrite Hdo. simpl. by rewrite decide_False.
Qed.

Lemma Request_passes_through_witness :
  sends (strava_Request (H := demo_server_error) MethodPost demo_token_uri
           demo_json_params) demo_world demo_json_request ∧
  strava_Request (H := demo_server_error) MethodPost demo_token_uri
    demo_json_params demo_world
  = Returns (Some demo_500_response, None)
      (after_send demo_json_request demo_world).
Proof.
  assert (Hs : sends (strava_Request (H := demo_server_error) MethodPost
                        demo_token_uri demo_json_params)
                 demo_world demo_json_request)
    by (vm_compute; reflexivity).
  split; [exact Hs|].
  apply (@Request_passes_through demo_server_error MethodPost demo_token_uri
           demo_json_params demo_world demo_json_request demo_500_response None
           Hs); vm_compute; [reflexivity | discriminate].
Defined.

(** The URL of the request [Request] sends is what [url.Parse] made of the
    uri, with an empty port removed from the host and with the query string
    replaced: the query the uri carried is discarded, and with nil or empty
    Queries the query string is empty. The method is the one given (GET
    for the empty string). *)
Theorem Request_url `{Platform} (method uri : string) (p : RequestParams)
    (w : world) (req : http_Request) :
  sends (strava_Request method uri p) w req →
  ∃ u0, url_Parse uri = inl u0 ∧
        Req_Method req = effective_method method ∧
        URL_Scheme (Req_URL req) = URL_Scheme u0 ∧
        URL_Host (Req_URL req) = removeEmptyPort (URL_Host u0) ∧
        Req_Host req = removeEmptyPort (URL_Host u0) ∧
        URL_Path (Req_URL req) = URL_Path u0 ∧
        URL_Fragment (Req_URL req) = URL_Fragment u0 ∧
        URL_RawQuery (Req_URL req) =
          Values_Encode ((λ v, [convert_String v]) <$> default ∅ (Queries p)) ∧
        (default ∅ (Queries p) = ∅ → URL_RawQuery (Req_URL req) = "").
Proof.
  intros Hs%Request_sends_iff. unfold build_request, http_NewRequest in Hs.
  fold (effective_method method) in Hs.
  destruct (negb _); [done|].
  destruct (url_Parse uri) as [u0|e]; [|done].
  injection Hs as <-. exists u0. simpl.
  rewrite (range_Queries_fmap (default ∅ (Queries p))) by done.
  repeat (split; [done|]). intros ->. by rewrite fmap_empty.
Qed.

Lemma Request_url_witness :
  sends (@strava_Request demo_ok MethodGet demo_uri_with_query
           RequestParams_zero) demo_world demo_plain_request ∧
  URL_Host (Req_URL demo_plain_request) = "www.strava.com" ∧
  URL_RawQuery (Req_URL demo_plain_request) = "" ∧
  ∃ u0, plain_url_Parse demo_uri_with_query = inl u0 ∧
        Req_Method demo_plain_request = effective_method MethodGet ∧
        URL_Scheme (Req_URL demo_plain_request) = URL_Scheme u0 ∧
        URL_Host (Req_URL demo_plain_request) = removeEmptyPort (URL_Host u0) ∧
        Req_Host demo_plain_request = removeEmptyPort (URL_Host u0) ∧
        URL_Path (Req_URL demo_plain_request) = URL_Path u0 ∧
        URL_Fragment (Req_URL demo_plain_request) = URL_Fragment u0 ∧
        URL_RawQuery (Req_URL demo_plain_request) =
          Values_Encode ((λ v, [plain_convert_String v])
                           <$> default ∅ (Queries RequestParams_zero)) ∧
        (default ∅ (Queries RequestParams_zero) = ∅ →
         URL_RawQuery (Req_URL demo_plain_request) = "").
Proof.
  assert (Hs : sends (@strava_Request demo_ok MethodGet demo_uri_with_query
                        RequestParams_zero) demo_world demo_plain_request)
    by (vm_compute; reflexivity).
  split; [exact Hs|]. split; [vm_compute; reflexivity|].
  split; [vm_compute; reflexivity|].
  exact (@Request_url demo_ok MethodGet demo_uri_with_query RequestParams_zero
           demo_world demo_plain_request Hs).
Defined.

(** * The callers of [Request] *)

Section fetch_facts.
Context `{Platform}.

(** Every way a [fetch] can end. *)
Lemma fetch_unfold {A} (method uri : string) (p : RequestParams) (zero : A)
    (decode : http_Response → A * option error) (w : world) :
  fetch method uri p zero decode w =
  match build_request (self w) method uri p with
  | inr e => Returns (zero, Some e) w
  | inl req =>
      match Client_Do (Client (self w)) (sent w) req with
      | (None, _) => Panics (after_send req w)
      | (Some resp, err) =>
          match request_error resp err with
          | Some e => Returns (zero, Some e) (after_exchange req resp w)
          | None => Returns (decode resp) (after_exchange req resp w)
          end
      end
  end.
Proof.
  unfold fetch, bind. rewrite Request_unfold.
  destruct (build_request _ _ _ _) as [req|e]; [|done]. simpl.
  destruct (Client_Do _ _ _) as [[resp|] err]; simpl; [|done].
  unfold request_error. destruct (decide _); [done|].
  by destruct err.
Qed.

Lemma fetch_sends_iff {A} (method uri : string) (p : RequestParams) (zero : A)
    (decode : http_Response → A * option error) (w : world)
    (req : http_Request) :
  sends (fetch method uri p zero decode) w req ↔
  build_request (self w) method uri p = inl req.
Proof.
  rewrite <- Request_sends_iff. unfold sends.
  rewrite Request_final_sent, fetch_unfold.
  destruct (build_request _ _ _ _) as [req'|e]; [|done].
  destruct (Client_Do _ _ _) as [[resp|] err]; [|done].
  by destruct (request_error resp err).
Qed.

Lemma Activity_fetch (id : N) (w : world) :
  strava_Activity id w =
  fetch MethodGet (Host (cfg (self w)) +:+ "/activities/" +:+ format_uint id)
    bearer_params Activity_zero (decode_200 json_Unmarshal_Activity Activity_zero)
    w.
Proof.
  unfold strava_Activity, fetch, bind, decode_200. rewrite GET_unfold.
  fold bearer_params.
  destruct (strava_Request _ _ _ _) as [[r err] w'|w']; [|done].
  unfold deferring. simpl. destruct err; [done|]. destruct r; [|done].
  by destruct (decide _).
Qed.

Lemma Activities_fetch `{DateAPI Date} (p : ActivitiesRequest) (w : world) :
  strava_Activities p w =
  fetch MethodGet (Host (cfg (self w)) +:+ "/activities")
    (activities_params p) [] (decode_200 json_Unmarshal_Activities []) w.
Proof.
  unfold strava_Activities, fetch, bind, decode_200. rewrite GET_unfold.
  fold (activities_params p).
  destruct (strava_Request _ _ _ _) as [[r err] w'|w']; [|done].
  unfold deferring. simpl. destruct err; [done|]. destruct r; [|done].
  by destruct (decide _).
Qed.

Lemma grant_queries_supported (c : Config) (tok grant : string) :
  supported_grant grant →
  Map_Set "grant_type" (VString grant)
    <$> grant_queries tok grant
          (Map_Set "client_secret" (VString (ClientSecret c))
             (Map_Set "client_id" (VString (ClientID c)) ∅))
  = Some (exchange_queries c tok grant).
Proof.
  unfold grant_queries, exchange_queries, grant_field, Map_Set.
  intros [-> | ->]; simpl; f_equal; apply map_eq; intros k;
    repeat (rewrite lookup_insert; case_decide; [done|]); done.
Qed.

Lemma grant_queries_unsupported (tok grant : string)
    (queries : gmap string value) :
  ¬ supported_grant grant → grant_queries tok grant queries = None.
Proof.
  intros Hn. unfold grant_queries.
  rewrite !decide_False; [done| |]; intros ->; apply Hn; [by right | by left].
Qed.

Lemma AuthorizationAccessToken_fetch (tok grant : string) (w : world) :
  supported_grant grant →
  strava_AuthorizationAccessToken tok grant w =
  fetch MethodPost token_endpoint (exchange_params (cfg (self w)) tok grant)
    AccessToken_zero
    (λ r, json_Unmarshal_AccessToken (Resp_Body r) AccessToken_zero) w.
Proof.
  intros Hg. pose proof (grant_queries_supported (cfg (self w)) tok grant Hg) as Hq.
  unfold strava_AuthorizationAccessToken, bind at 1, get_self.
  destruct (grant_queries _ _ _) as [q|]; [|done].
  injection Hq as ->. reflexivity.
Qed.
End fetch_facts.

Section caller_facts.
Context `{Platform}.

Lemma fetch_at_most_once {A} (method uri : string) (p : RequestParams)
    (zero : A) (decode : http_Response → A * option error) (w : world) :
  sends_at_most_once (fetch method uri p zero decode) w.
Proof.
  unfold sends_at_most_once.
  destruct (build_request (self w) method uri p) as [req|e] eqn:Hb.
  - right. exists req. by apply fetch_sends_iff.
  - left. unfold sends_nothing. by rewrite fetch_unfold, Hb.
Qed.

Lemma fetch_keeps_client {A} (method uri : string) (p : RequestParams)
    (zero : A) (decode : http_Response → A * option error) (w : world) :
  keeps_client (fetch method uri p zero decode) w.
Proof.
  unfold keeps_client. rewrite fetch_unfold.
  destruct (build_request _ _ _ _) as [req|e]; [|done].
  destruct (Client_Do _ _ _) as [[resp|] err]; [|done].
  by destruct (request_error resp err).
Qed.

Lemma fetch_closes {A} (method uri : string) (p : RequestParams)
    (zero : A) (decode : http_Response → A * option error) (w : world) :
  (sends_nothing (fetch method uri p zero decode) w →
   closes (fetch method uri p zero decode) w []) ∧
  (∀ req resp err,
     sends (fetch method uri p zero decode) w req →
     Client_Do (Client (self w)) (sent w) req = (Some resp, err) →
     closes (fetch method uri p zero decode) w [resp]) ∧
  (∀ req err,
     sends (fetch method uri p zero decode) w req →
     Client_Do (Client (self w)) (sent w) req = (None, err) →
     closes (fetch method uri p zero decode) w []).
Proof.
  unfold closes, sends_nothing. split; [|split].
  - rewrite fetch_unfold.
    destruct (build_request _ _ _ _) as [req|e];
      [|by rewrite app_nil_r].
    destruct (Client_Do _ _ _) as [[resp|] err];
      [destruct (request_error resp err)|]; simpl; intros Hs;
      apply (f_equal length) in Hs; rewrite length_app in Hs; simpl in Hs; lia.
  - intros req resp err Hs%fetch_sends_iff Hdo.
    rewrite fetch_unfold, Hs, Hdo. by destruct (request_error resp err).
  - intros req err Hs%fetch_sends_iff Hdo.
    rewrite fetch_unfold, Hs, Hdo. simpl. by rewrite app_nil_r.
Qed.

Lemma AuthorizationAccessToken_unsupported (tok grant : string) (w : world) :
  ¬ supported_grant grant →
  strava_AuthorizationAccessToken tok grant w =
  Returns (AccessToken_zero,
           Some (Errorf ("grant_type `" +:+ grant +:+ "` not supported"))) w.
Proof.
  intros Hn. unfold strava_AuthorizationAccessToken, bind, get_self.
  by rewrite grant_queries_unsupported.
Qed.

Lemma supported_grant_dec (grant : string) :
  supported_grant grant ∨ ¬ supported_grant grant.
Proof.
  unfold supported_grant.
  destruct (decide (grant = GrantAuthorizationCode));
    destruct (decide (grant = GrantRefreshToken)); tauto.
Qed.
End caller_facts.

(** No operation retries: [Request], [Activity], [Activities] and
    [AuthorizationAccessToken] each hand at most one request to the
    transport, however the call ends (result, error or panic). *)
Theorem operations_send_at_most_once `{Platform} `{DateAPI Date} (w : world) :
  (∀ method uri p, sends_at_most_once (strava_Request method uri p) w) ∧
  (∀ id, sends_at_most_once (strava_Activity id) w) ∧
  (∀ p, sends_at_most_once (strava_Activities p) w) ∧
  (∀ tok grant, sends_at_most_once (strava_AuthorizationAccessToken tok grant) w).
Proof.
  split; [|split; [|split]].
  - intros method uri p. unfold sends_at_most_once.
    destruct (build_request (self w) method uri p) as [req|e] eqn:Hb.
    + right. exists req. by apply Request_sends_iff.
    + left. unfold sends_nothing. by rewrite Request_final_sent, Hb.
  - intros id. unfold sends_at_most_once, sends_nothing, sends.
    rewrite Activity_fetch. apply fetch_at_most_once.
  - intros p. unfold sends_at_most_once, sends_nothing, sends.
    rewrite Activities_fetch. apply fetch_at_most_once.
  - intros tok grant. unfold sends_at_most_once, sends_nothing, sends.
    destruct (supported_grant_dec grant) as [Hg|Hg].
    + rewrite AuthorizationAccessToken_fetch by done. apply fetch_at_most_once.
    + left. by rewrite AuthorizationAccessToken_unsupported.
Qed.

(** No operation but the two setters changes the client: after [Request],
    [Activity], [Activities], [AuthorizationAccessToken] and
    [AuthorizationURL] the client holds the configuration, the access token
    and the user id it held before. In particular the token exchange does
    not install the token it obtained; and [Request] itself closes no
    response body. *)
Theorem operations_keep_client `{Platform} `{DateAPI Date} (w : world) :
  (∀ method uri p, keeps_client (strava_Request method uri p) w ∧
                   closes (strava_Request method uri p) w []) ∧
  (∀ id, keeps_client (strava_Activity id) w) ∧
  (∀ p, keeps_client (strava_Activities p) w) ∧
  (∀ tok grant, keeps_client (strava_AuthorizationAccessToken tok grant) w) ∧
  (∀ state, keeps_client (strava_AuthorizationURL state) w).
Proof.
  unfold keeps_client, closes. split; [|split; [|split; [|split]]].
  - intros method uri p. rewrite Request_unfold.
    destruct (build_request _ _ _ _) as [req|e]; [|by rewrite app_nil_r].
    simpl. destruct (Client_Do _ _ _) as [[resp|] err]; simpl;
      [destruct (decide _)|]; by rewrite app_nil_r.
  - intros id. rewrite Activity_fetch. apply fetch_keeps_client.
  - intros p. rewrite Activities_fetch. apply fetch_keeps_client.
  - intros tok grant. destruct (supported_grant_dec grant) as [Hg|Hg].
    + rewrite AuthorizationAccessToken_fetch by done. apply fetch_keeps_client.
    + by rewrite AuthorizationAccessToken_unsupported.
  - done.
Qed.

(** Every response [Activity], [Activities] and [AuthorizationAccessToken]
    receive has its body closed exactly once, whatever its status and
    whatever error came with it; when nothing was sent, or the transport
    gave no response, nothing is closed. *)
Theorem responses_closed `{Platform} `{DateAPI Date} (w : world) :
  (∀ id, closes_what_it_receives (strava_Activity id) w) ∧
  (∀ p, closes_what_it_receives (strava_Activities p) w) ∧
  (∀ tok grant,
     closes_what_it_receives (strava_AuthorizationAccessToken tok grant) w).
Proof.
  unfold closes_what_it_receives, closes, sends, sends_nothing.
  split; [|split].
  - intros id. rewrite Activity_fetch. apply fetch_closes.
  - intros p. rewrite Activities_fetch. apply fetch_closes.
  - intros tok grant. destruct (supported_grant_dec grant) as [Hg|Hg].
    + rewrite AuthorizationAccessToken_fetch by done. apply fetch_closes.
    + rewrite AuthorizationAccessToken_unsupported by done. simpl.
      split; [by rewrite app_nil_r|].
      split; [intros req resp err Hs _ | intros req err Hs _];
        apply (f_equal length) in Hs; rewrite length_app in Hs;
        simpl in Hs; lia.
Qed.

Lemma responses_closed_witness :
  closes (strava_Activity (H := demo_redirects) 42) demo_world
    [demo_302_response].
Proof.
  destruct (@responses_closed demo_redirects TimeDate TimeDate_API demo_world)
    as [Hact _].
  destruct (Hact 42%N) as (_ & Hclose & _).
  apply (Hclose demo_activity_request demo_302_response
           (Some demo_redirect_error)); vm_compute; reflexivity.
Defined.

(** When [Request] reports an error beside a response (status 401, or an
    error of the transport such as a failed redirect), each of [Activity],
    [Activities] and [AuthorizationAccessToken] returns its zero value with
    that error, 401 taking precedence as [AuthorizationError]; the body is
    closed and never decoded. *)
Theorem callers_report_errors `{Platform} `{DateAPI Date} (w : world) :
  (∀ id, reports_error (strava_Activity id) Activity_zero w) ∧
  (∀ p, reports_error (strava_Activities p) [] w) ∧
  (∀ tok grant,
     reports_error (strava_AuthorizationAccessToken tok grant)
       AccessToken_zero w).
Proof.
  assert (Hfetch : ∀ A method uri p (zero : A) decode,
            reports_error (fetch method uri p zero decode) zero w).
  { intros A method uri p zero decode req resp err e Hs%fetch_sends_iff Hdo He.
    by rewrite fetch_unfold, Hs, Hdo, He. }
  unfold reports_error, sends in *. split; [|split].
  - intros id. rewrite Activity_fetch. apply Hfetch.
  - intros p. rewrite Activities_fetch. apply Hfetch.
  - intros tok grant. destruct (supported_grant_dec grant) as [Hg|Hg].
    + rewrite AuthorizationAccessToken_fetch by done. apply Hfetch.
    + rewrite AuthorizationAccessToken_unsupported by done. simpl.
      intros req resp err e Hs. apply (f_equal length) in Hs.
      rewrite length_app in Hs. simpl in Hs. lia.
Qed.

Lemma callers_report_errors_witness :
  strava_AuthorizationAccessToken (H := demo_unauthorized) "c0de"
    GrantAuthorizationCode demo_world
  = Returns (AccessToken_zero, Some AuthorizationError)
      (after_exchange demo_exchange_sent demo_401_response demo_world).
Proof.
  destruct (@callers_report_errors demo_unauthorized TimeDate TimeDate_API
              demo_world) as (_ & _ & Htok).
  apply (Htok "c0de" GrantAuthorizationCode demo_exchange_sent
           demo_401_response None AuthorizationError);
    vm_compute; reflexivity.
Defined.

Section built_request_facts.
Context `{Platform}.

Lemma build_request_header (s : strava) (method uri : string)
    (p : RequestParams) (req : http_Request) (key : string) :
  build_request s method uri p = inl req →
  Req_Header req !! key = expected_header method p (accessToken s) key.
Proof.
  intros (req0 & [Hh0 _]%NewRequest_inv & _ & _ & _ & Hh)%build_request_inv.
  rewrite Hh, Hh0. unfold expected_header, Header_Set.
  destruct (decide (key = "Accept")) as [->|Ha];
    [by rewrite lookup_insert_eq|].
  rewrite lookup_insert_ne by done.
  destruct (decide (key = "Content-Type")) as [->|Hc];
    [by rewrite lookup_insert_eq|].
  rewrite lookup_insert_ne by done.
  destruct (WithBearer p), (decide (key = "Authorization")) as [->|Hz];
    by rewrite ?lookup_insert_eq, ?lookup_insert_ne, ?lookup_empty by done.
Qed.

Lemma build_request_query (s : strava) (method uri : string)
    (p : RequestParams) (req : http_Request) :
  build_request s method uri p = inl req →
  URL_RawQuery (Req_URL req) =
    Values_Encode ((λ v, [convert_String v]) <$> default ∅ (Queries p)) ∧
  url_ParseQuery (URL_RawQuery (Req_URL req)) =
    ((λ v, [convert_String v]) <$> default ∅ (Queries p), None).
Proof.
  intros (req0 & _ & _ & _ & Hurl & _)%build_request_inv.
  rewrite Hurl. simpl.
  rewrite (range_Queries_fmap (default ∅ (Queries p))) by done.
  split; [done|]. apply ParseQuery_Encode. intros k. rewrite lookup_fmap.
  by destruct (default ∅ (Queries p) !! k).
Qed.

Lemma build_request_method_body (s : strava) (method uri : string)
    (p : RequestParams) (req : http_Request) :
  build_request s method uri p = inl req →
  Req_Method req = effective_method method ∧ Req_Body req = None ∧
  ∃ u0, url_Parse uri = inl u0 ∧
        URL_Scheme (Req_URL req) = URL_Scheme u0 ∧
        URL_Host (Req_URL req) = removeEmptyPort (URL_Host u0) ∧
        URL_Path (Req_URL req) = URL_Path u0.
Proof.
  unfold build_request, http_NewRequest. fold (effective_method method).
  destruct (negb _); [done|].
  destruct (url_Parse uri) as [u0|e]; [|done].
  intros [= <-]. simpl. repeat split. by exists u0.
Qed.

Lemma build_request_parse_error (s : strava) (uri : string)
    (p : RequestParams) (e : error) :
  url_Parse uri = inr e → build_request s MethodGet uri p = inr e.
Proof.
  intros Hp. unfold build_request, http_NewRequest. simpl. by rewrite Hp.
Qed.
End built_request_facts.

(** When [url.Parse] refuses the configured host joined with the endpoint,
    [Activity] and [Activities] return their zero value with the parse
    error; nothing is sent, nothing is closed, the world is as it was. *)
Theorem resource_calls_bad_host `{Platform} `{DateAPI Date} (w : world)
    (e : error) :
  (∀ id,
     url_Parse (Host (cfg (self w)) +:+ "/activities/" +:+ format_uint id)
       = inr e →
     strava_Activity id w = Returns (Activity_zero, Some e) w) ∧
  (∀ p,
     url_Parse (Host (cfg (self w)) +:+ "/activities") = inr e →
     strava_Activities p w = Returns ([], Some e) w).
Proof.
  split.
  - intros id Hp. rewrite Activity_fetch, fetch_unfold.
    by rewrite (build_request_parse_error _ _ _ _ Hp).
  - intros p Hp. rewrite Activities_fetch, fetch_unfold.
    by rewrite (build_request_parse_error _ _ _ _ Hp).
Qed.

Lemma resource_calls_bad_host_witness :
  strava_Activity (H := demo_ok) 42 demo_world_bad_host
  = Returns (Activity_zero, Some (LibError "net/url" "missing protocol scheme"))
      demo_world_bad_host.
Proof.
  destruct (@resource_calls_bad_host demo_ok TimeDate TimeDate_API
              demo_world_bad_host
              (LibError "net/url" "missing protocol scheme")) as [Hact _].
  apply Hact. vm_compute. reflexivity.
Defined.

(** The request of the token exchange: for a supported grant
    [AuthorizationAccessToken] sends a POST whose query string holds
    exactly client_id, client_secret, grant_type and the token under "code"
    (authorization_code) or "refresh_token" (refresh_token). It is typed
    application/json, has no body, and carries no Authorization header even
    when the client holds an access token. The endpoint is fixed: it does
    not depend on the configured host. *)
Theorem token_exchange_request `{Platform} (tok grant : string) (w : world)
    (req : http_Request) :
  sends (strava_AuthorizationAccessToken tok grant) w req →
  supported_grant grant ∧
  Req_Method req = MethodPost ∧
  url_ParseQuery (URL_RawQuery (Req_URL req)) =
    ((λ v, [convert_String v]) <$> exchange_queries (cfg (self w)) tok grant,
     None) ∧
  Req_Header req !! "Authorization" = None ∧
  Req_Header req !! "Content-Type" = Some [json_type] ∧
  Req_Body req = None ∧
  ∃ u0, url_Parse token_endpoint = inl u0 ∧
        URL_Host (Req_URL req) = removeEmptyPort (URL_Host u0) ∧
        URL_Path (Req_URL req) = URL_Path u0.
Proof.
  intros Hs. destruct (supported_grant_dec grant) as [Hg|Hg].
  2:{ unfold sends in Hs.
      rewrite AuthorizationAccessToken_unsupported in Hs by done.
      apply (f_equal length) in Hs. rewrite length_app in Hs.
      simpl in Hs. lia. }
  unfold sends in Hs. rewrite AuthorizationAccessToken_fetch in Hs by done.
  apply fetch_sends_iff in Hs.
  destruct (build_request_query _ _ _ _ _ Hs) as [_ Hq].
  destruct (build_request_method_body _ _ _ _ _ Hs)
    as (Hm & Hb & u0 & Hu0 & _ & Hhost & Hpath).
  split; [done|]. split; [done|]. split; [exact Hq|].
  rewrite !(build_request_header _ _ _ _ _ _ Hs).
  split; [done|]. split; [done|]. split; [done|]. by exists u0.
Qed.

Lemma token_exchange_request_witness :
  sends (strava_AuthorizationAccessToken (H := demo_ok) "c0de"
           GrantAuthorizationCode) demo_world demo_exchange_sent ∧
  URL_RawQuery (Req_URL demo_exchange_sent) =
    "client_id=4711&client_secret=s3cr3t&code=c0de&grant_type=authorization_code" ∧
  Req_Header demo_exchange_sent !! "Authorization" = None ∧
  Req_Header demo_exchange_sent !! "Content-Type" = Some [json_type].
Proof.
  assert (Hs : sends (strava_AuthorizationAccessToken (H := demo_ok) "c0de"
                        GrantAuthorizationCode) demo_world demo_exchange_sent)
    by (vm_compute; reflexivity).
  split; [exact Hs|]. split; [vm_compute; reflexivity|].
  destruct (@token_exchange_request demo_ok "c0de" GrantAuthorizationCode
              demo_world demo_exchange_sent Hs)
    as (_ & _ & _ & Hauth & Hct & _).
  split; [exact Hauth | exact Hct].
Defined.

(** The token exchange decodes whatever comes back: for every status other
    than 401, a 4xx or 5xx included, [AuthorizationAccessToken] returns what
    the JSON decoder makes of the body, with the decoder's error if any. *)
Theorem token_exchange_decodes_any_status `{Platform} (tok grant : string)
    (w : world) (req : http_Request) (resp : http_Response) :
  sends (strava_AuthorizationAccessToken tok grant) w req →
  Client_Do (Client (self w)) (sent w) req = (Some resp, None) →
  StatusCode resp ≠ StatusUnauthorized →
  strava_AuthorizationAccessToken tok grant w =
  Returns (json_Unmarshal_AccessToken (Resp_Body resp) AccessToken_zero)
    (after_exchange req resp w).
Proof.
  intros Hs Hdo Hst. destruct (supported_grant_dec grant) as [Hg|Hg].
  2:{ unfold sends in Hs.
      rewrite AuthorizationAccessToken_unsupported in Hs by done.
      apply (f_equal length) in Hs. rewrite length_app in Hs.
      simpl in Hs. lia. }
  unfold sends in Hs. rewrite AuthorizationAccessToken_fetch in * by done.
  apply fetch_sends_iff in Hs. rewrite fetch_unfold, Hs, Hdo.
  unfold request_error. by rewrite decide_False.
Qed.

Lemma token_exchange_decodes_any_status_witness :
  strava_AuthorizationAccessToken (H := demo_server_error) "c0de"
    GrantAuthorizationCode demo_world
  = Returns (AccessToken_zero, None)
      (after_exchange demo_exchange_sent demo_500_response demo_world).
Proof.
  apply (@token_exchange_decodes_any_status demo_server_error "c0de"
           GrantAuthorizationCode demo_world demo_exchange_sent
           demo_500_response); vm_compute; [reflexivity..|discriminate].
Defined.

(** [Activities] follows the rule of [Activity]: a response without error
    whose status is neither 200 nor 401 gives the empty list and the nil
    error; status 200 gives what the JSON decoder makes of the body. The
    body is closed in both cases. *)
Theorem Activities_status `{Platform} `{DateAPI Date} (p : ActivitiesRequest)
    (w : world) (req : http_Request) (resp : http_Response) :
  sends (strava_Activities p) w req →
  Client_Do (Client (self w)) (sent w) req = (Some resp, None) →
  (StatusCode resp ≠ StatusOK → StatusCode resp ≠ StatusUnauthorized →
     strava_Activities p w = Returns ([], None) (after_exchange req resp w)) ∧
  (StatusCode resp = StatusOK →
     strava_Activities p w =
       Returns (json_Unmarshal_Activities (Resp_Body resp) [])
               (after_exchange req resp w)).
Proof.
  intros Hs Hdo. unfold sends in Hs. rewrite Activities_fetch in *.
  apply fetch_sends_iff in Hs. rewrite fetch_unfold, Hs, Hdo.
  unfold request_error, decode_200. split.
  - intros Hok Hun. by rewrite !decide_False.
  - intros Hok. rewrite decide_False by (by rewrite Hok).
    by rewrite decide_True.
Qed.

Lemma Activities_status_witness :
  sends (strava_Activities (H := demo_not_found) demo_activities_request)
    demo_world demo_activities_sent ∧
  strava_Activities (H := demo_not_found) demo_activities_request demo_world
  = Returns ([], None)
      (after_exchange demo_activities_sent demo_404_response demo_world).
Proof.
  assert (Hs : sends (strava_Activities (H := demo_not_found)
                        demo_activities_request)
                 demo_world demo_activities_sent)
    by (vm_compute; reflexivity).
  split; [exact Hs|].
  assert (Hdo : Client_Do (Platform := demo_not_found)
                  (Client (self demo_world)) (sent demo_world)
                  demo_activities_sent = (Some demo_404_response, None))
    by (vm_compute; reflexivity).
  destruct (@Activities_status demo_not_found TimeDate TimeDate_API
              demo_activities_request demo_world demo_activities_sent
              demo_404_response Hs Hdo) as [Hother _].
  apply Hother; vm_compute; discriminate.
Defined.

(** The request of [Activities]: a GET carrying the client's bearer token,
    typed form-urlencoded, without body, whose query string read back is
    exactly the mapping [Queries] made of the filter; for the zero filter
    the query string is empty. *)
Theorem Activities_request `{Platform} `{DateAPI Date} (p : ActivitiesRequest)
    (w : world) (req : http_Request) :
  sends (strava_Activities p) w req →
  Req_Method req = MethodGet ∧
  url_ParseQuery (URL_RawQuery (Req_URL req)) =
    ((λ v, [convert_String v]) <$> ActivitiesRequest_Queries p, None) ∧
  (p = ActivitiesRequest_zero → URL_RawQuery (Req_URL req) = "") ∧
  Req_Header req !! "Authorization" = Some ["Bearer " +:+ accessToken (self w)] ∧
  Req_Header req !! "Content-Type" = Some [form_type] ∧
  Req_Body req = None.
Proof.
  intros Hs. unfold sends in Hs. rewrite Activities_fetch in Hs.
  apply fetch_sends_iff in Hs.
  destruct (build_request_query _ _ _ _ _ Hs) as [Hraw Hq].
  destruct (build_request_method_body _ _ _ _ _ Hs) as (Hm & Hb & _).
  rewrite !(build_request_header _ _ _ _ _ _ Hs).
  split; [done|]. split; [exact Hq|]. split; [|done].
  intros ->. rewrite Hraw. simpl.
  unfold ActivitiesRequest_Queries, ActivitiesRequest_zero. simpl.
  rewrite Date_zero_IsZero. simpl. by rewrite fmap_empty.
Qed.

Lemma Activities_request_witness :
  sends (strava_Activities (H := demo_ok) demo_activities_request)
    demo_world demo_activities_sent ∧
  URL_RawQuery (Req_URL demo_activities_sent)
    = "before=1609459200&page=2&per_page=30" ∧
  Req_Method demo_activities_sent = MethodGet ∧
  Req_Header demo_activities_sent !! "Authorization" = Some ["Bearer tok123"].
Proof.
  assert (Hs : sends (strava_Activities (H := demo_ok) demo_activities_request)
                 demo_world demo_activities_sent)
    by (vm_compute; reflexivity).
  split; [exact Hs|]. split; [vm_compute; reflexivity|].
  destruct (@Activities_request demo_ok TimeDate TimeDate_API
              demo_activities_request demo_world demo_activities_sent Hs)
    as (Hm & _ & _ & Hauth & _).
  split; [exact Hm | exact Hauth].
Defined.

(** The request of [Activity]: a GET of the configured host followed by
    /activities/ and the id in decimal, with an empty query string, the
    client's bearer token, typed form-urlencoded, without body. *)
Theorem Activity_request `{Platform} (id : N) (w : world) (req : http_Request) :
  sends (strava_Activity id) w req →
  Req_Method req = MethodGet ∧
  URL_RawQuery (Req_URL req) = "" ∧
  Req_Header req !! "Authorization" = Some ["Bearer " +:+ accessToken (self w)] ∧
  Req_Header req !! "Content-Type" = Some [form_type] ∧
  Req_Body req = None ∧
  ∃ u0, url_Parse (Host (cfg (self w)) +:+ "/activities/" +:+ format_uint id)
          = inl u0 ∧
        URL_Host (Req_URL req) = removeEmptyPort (URL_Host u0) ∧
        URL_Path (Req_URL req) = URL_Path u0.
Proof.
  intros Hs. unfold sends in Hs. rewrite Activity_fetch in Hs.
  apply fetch_sends_iff in Hs.
  destruct (build_request_query _ _ _ _ _ Hs) as [Hraw _].
  destruct (build_request_method_body _ _ _ _ _ Hs)
    as (Hm & Hb & u0 & Hu0 & _ & Hhost & Hpath).
  rewrite !(build_request_header _ _ _ _ _ _ Hs).
  split; [done|]. split; [rewrite Hraw; simpl; by rewrite fmap_empty|].
  split; [done|]. split; [done|]. split; [done|]. by exists u0.
Qed.

Lemma Activity_request_witness :
  sends (strava_Activity (H := demo_ok) 42) demo_world demo_activity_request ∧
  URL_Path (Req_URL demo_activity_request) = "/api/v3/activities/42" ∧
  URL_RawQuery (Req_URL demo_activity_request) = "" ∧
  Req_Header demo_activity_request !! "Authorization" = Some ["Bearer tok123"].
Proof.
  assert (Hs : sends (strava_Activity (H := demo_ok) 42) demo_world
                 demo_activity_request) by (vm_compute; reflexivity).
  split; [exact Hs|]. split; [vm_compute; reflexivity|].
  destruct (@Activity_request demo_ok 42%N demo_world demo_activity_request Hs)
    as (_ & Hraw & Hauth & _).
  split; [exact Hraw | exact Hauth].
Defined.



Lemma SetAccessToken_then_bearer_witness :
  WithBearer bearer_params = true ∧
  sends (strava_Request (H := demo_ok) MethodGet demo_token_uri bearer_params)
    (final_world (strava_SetAccessToken "fresh-token" demo_world))
    demo_retokened_request ∧
  Header_Get "Authorization" (Req_Header demo_retokened_request)
    = "Bearer fresh-token".
Proof.
  assert (Hs : sends (strava_Request (H := demo_ok) MethodGet demo_token_uri
                        bearer_params)
                 (final_world (strava_SetAccessToken "fresh-token" demo_world))
                 demo_retokened_request)
    by (vm_compute; reflexivity).
  split; [reflexivity|]. split; [exact Hs|].
  exact (@SetAccessToken_then_bearer demo_ok "fresh-token" MethodGet
           demo_token_uri bearer_params demo_world demo_retokened_request
           eq_refl Hs).
Defined.

(** The client [New] builds: it keeps the configuration, its timeout is the
    configured number of seconds in nanoseconds, which fits [int64] for
    every [uint16] value, and it holds no access token, so until
    [SetAccessToken] is called an authenticated call sends the header
    "Bearer " with nothing after it. *)
Theorem New_client `{Platform} (c : Config) :
  in_uint16 (Timeout c) →
  cfg (New c) = c ∧
  Client_Timeout (Client (New c)) = (Z.of_N (Timeout c) * 1000000000)%Z ∧
  in_int64 (Client_Timeout (Client (New c))) ∧
  ∀ id seen done req,
    sends (strava_Activity id) {| self := New c; sent := seen; closed := done |}
      req →
    Req_Header req !! "Authorization" = Some ["Bearer "].
Proof.
  unfold in_uint16, in_int64. intros Ht.
  split; [done|]. split; [done|]. split; [simpl; unfold time_Second; lia|].
  intros id seen done req Hs. unfold sends in Hs.
  rewrite Activity_fetch in Hs. apply fetch_sends_iff in Hs.
  by rewrite (build_request_header _ _ _ _ _ _ Hs).
Qed.

Lemma New_client_witness :
  in_uint16 (Timeout demo_config) ∧
  Client_Timeout (Client (New demo_config)) = 10000000000%Z ∧
  Req_Header demo_fresh_request !! "Authorization" = Some ["Bearer "].
Proof.
  assert (Ht : in_uint16 (Timeout demo_config)) by (vm_compute; reflexivity).
  destruct (@New_client demo_ok demo_config Ht) as (_ & Htime & _ & Hauth).
  split; [exact Ht|]. split; [exact Htime|].
  apply (Hauth 42%N [] []). vm_compute. reflexivity.
Defined.

(** The authorization URL is built without touching the world; it depends
    on the client id, the scope and the state only, so the redirect URI of
    the configuration is ignored in favour of the fixed one; and the
    state is appended as it is, without escaping. *)
Theorem AuthorizationURL_shape (state : string) (w : world) :
  ∃ url,
    strava_AuthorizationURL state w = Returns url w ∧
    (∃ pre, url = pre +:+ authorize_redirect +:+ Scope (cfg (self w))
                    +:+ "&state=" +:+ state) ∧
    ∀ w', ClientID (cfg (self w')) = ClientID (cfg (self w)) →
          Scope (cfg (self w')) = Scope (cfg (self w)) →
          strava_AuthorizationURL state w' = Returns url w'.
Proof.
  eexists. split; [reflexivity|]. split.
  - exists ("https://www.strava.com/oauth/authorize?client_id="
            +:+ ClientID (cfg (self w))).
    by rewrite append_assoc.
  - intros w' Hid Hscope.
    unfold strava_AuthorizationURL, bind, get_self, ret.
    by rewrite Hid, Hscope.
Qed.

Lemma AuthorizationURL_shape_witness :
  strava_AuthorizationURL "xyz" demo_world_bad_host
  = Returns ("https://www.strava.com/oauth/authorize?client_id=4711"
             +:+ authorize_redirect +:+ "read&state=xyz") demo_world_bad_host.
Proof.
  destruct (AuthorizationURL_shape "xyz"
              {| self := {| Client := Client demo_strava;
                            cfg := {| Host := ""; ClientID := "4711";
                                      ClientSecret := ""; RedirectURI := "elsewhere";
                                      Timeout := 0; Scope := "read" |};
                            accessToken := ""; userID := 9 |};
                 sent := []; closed := [] |})
    as (url & Hrun & _ & Hsame).
  injection Hrun as <-. apply Hsame; reflexivity.
Defined.

(** The loop over Queries gives the same query values, and so the same
    query string, in whatever order it meets the entries of the map. *)
Theorem query_order_irrelevant `{Platform} (m : gmap string value)
    (order1 order2 : list (string * value)) :
  order1 ≡ₚ map_to_list m →
  order2 ≡ₚ map_to_list m →
  range_Queries order1 ∅ = range_Queries order2 ∅ ∧
  Values_Encode (range_Queries order1 ∅)
    = Values_Encode (range_Queries order2 ∅) ∧
  ∀ k, range_Queries order1 ∅ !! k = (λ v, [convert_String v]) <$> m !! k.
Proof.
  intros H1 H2.
  rewrite (range_Queries_fmap m order1), (range_Queries_fmap m order2) by done.
  split; [done|]. split; [done|]. intros k. apply lookup_fmap.
Qed.

Lemma query_order_irrelevant_witness :
  demo_query_order ≠ map_to_list demo_query_map ∧
  range_Queries (H := demo_ok) demo_query_order ∅
    = range_Queries (H := demo_ok) (map_to_list demo_query_map) ∅.
Proof.
  split; [vm_compute; discriminate|].
  apply (@query_order_irrelevant demo_ok demo_query_map demo_query_order
           (map_to_list demo_query_map)).
  - apply reverse_Permutation.
  - reflexivity.
Defined.

(** The helpers [GET] and [POST] address the endpoint relative to the
    configured host. A request sent through [GET] has method GET and is
    always typed form-urlencoded; one sent through [POST] has method POST
    and is typed application/json unless WithFormURLEncoded is set. *)
Theorem helpers_request `{Platform} (endpoint : string) (p : RequestParams)
    (w : world) (req : http_Request) :
  (sends (strava_GET endpoint p) w req →
     Req_Method req = MethodGet ∧
     Req_Header req !! "Content-Type" = Some [form_type] ∧
     ∃ u0, url_Parse (Host (cfg (self w)) +:+ endpoint) = inl u0 ∧
           URL_Path (Req_URL req) = URL_Path u0) ∧
  (sends (strava_POST endpoint p) w req →
     Req_Method req = MethodPost ∧
     Req_Header req !! "Content-Type" =
       Some [if WithFormURLEncoded p then form_type else json_type] ∧
     ∃ u0, url_Parse (Host (cfg (self w)) +:+ endpoint) = inl u0 ∧
           URL_Path (Req_URL req) = URL_Path u0).
Proof.
  split; intros Hs%Request_sends_iff;
    destruct (build_request_method_body _ _ _ _ _ Hs)
      as (Hm & _ & u0 & Hu0 & _ & _ & Hpath);
    rewrite (build_request_header _ _ _ _ _ _ Hs);
    (split; [done|]); (split; [|by exists u0]).
  - done.
  - unfold expected_header. simpl. by destruct (WithFormURLEncoded p).
Qed.

Lemma helpers_request_witness :
  sends (strava_POST (H := demo_ok) "/uploads" demo_form_params) demo_world
    demo_post_sent ∧
  Req_Method demo_post_sent = MethodPost ∧
  Req_Header demo_post_sent !! "Content-Type" = Some [form_type] ∧
  URL_Path (Req_URL demo_post_sent) = "/api/v3/uploads".
Proof.
  assert (Hs : sends (strava_POST (H := demo_ok) "/uploads" demo_form_params)
                 demo_world demo_post_sent) by (vm_compute; reflexivity).
  split; [exact Hs|].
  destruct (@helpers_request demo_ok "/uploads" demo_form_params demo_world
              demo_post_sent) as [_ Hpost].
  destruct (Hpost Hs) as (Hm & Hct & _).
  split; [exact Hm|]. split; [exact Hct|]. vm_compute. reflexivity.
Defined.

(** When the transport gives no response, the panic of [Request] goes
    through [Activity], [Activities] and [AuthorizationAccessToken]: none
    of them returns the transport's error; the request has gone out and
    nothing is closed. *)
Theorem callers_panic_without_response `{Platform} `{DateAPI Date} (w : world)
    (req : http_Request) (err : option error) :
  Client_Do (Client (self w)) (sent w) req = (None, err) →
  (∀ id, sends (strava_Activity id) w req →
         strava_Activity id w = Panics (after_send req w)) ∧
  (∀ p, sends (strava_Activities p) w req →
        strava_Activities p w = Panics (after_send req w)) ∧
  (∀ tok grant,
     sends (strava_AuthorizationAccessToken tok grant) w req →
     strava_AuthorizationAccessToken tok grant w = Panics (after_send req w)).
Proof.
  intros Hdo.
  assert (Hfetch : ∀ A method uri p (zero : A) decode,
            sends (fetch method uri p zero decode) w req →
            fetch method uri p zero decode w = Panics (after_send req w)).
  { intros A method uri p zero decode Hs%fetch_sends_iff.
    by rewrite fetch_unfold, Hs, Hdo. }
  unfold sends in *. split; [|split].
  - intros id. rewrite Activity_fetch. apply Hfetch.
  - intros p. rewrite Activities_fetch. apply Hfetch.
  - intros tok grant. destruct (supported_grant_dec grant) as [Hg|Hg].
    + rewrite AuthorizationAccessToken_fetch by done. apply Hfetch.
    + rewrite AuthorizationAccessToken_unsupported by done. simpl.
      intros Hs. apply (f_equal length) in Hs. rewrite length_app in Hs.
      simpl in Hs. lia.
Qed.

Lemma callers_panic_without_response_witness :
  Client_Do (Platform := demo_refused) (Client (self demo_world))
    (sent demo_world) demo_exchange_sent = (None, Some demo_dial_error) ∧
  strava_AuthorizationAccessToken (H := demo_refused) "c0de"
    GrantAuthorizationCode demo_world
  = Panics (after_send demo_exchange_sent demo_world).
Proof.
  assert (Hdo : Client_Do (Platform := demo_refused) (Client (self demo_world))
                  (sent demo_world) demo_exchange_sent
                = (None, Some demo_dial_error)) by (vm_compute; reflexivity).
  split; [exact Hdo|].
  destruct (@callers_panic_without_response demo_refused TimeDate TimeDate_API
              demo_world demo_exchange_sent (Some demo_dial_error) Hdo)
    as (_ & _ & Htok).
  apply Htok. vm_compute. reflexivity.
Defined.
